(** * Homelike spice shop: the catalog / profile / cart / order state engine

    A shallow embedding of the state engine of [src/App.tsx] (the [App]
    component's state cells and event handlers) and the properties of it that
    the specification states.

    Modelling conventions.
    - A JavaScript string is a [string]; every character is one code unit in
      the Latin-1 range, which is where [trim], [toLowerCase] and the slug
      regular expressions are modelled exactly.
    - A JavaScript number that the code only ever uses as an integer (prices,
      stored quantities, totals, clock readings) is a [Z]; arithmetic on them
      is exact, i.e. within the safe-integer range of the runtime.  A number
      that comes from user input ([value] of a quantity change, the parsed
      price of a draft) is a [number]: a finite rational or one of the three
      non-finite values.
    - [quantities : Record<string, number>] is a [gmap string Z]; product
      identifiers are assumed not to name inherited members of
      [Object.prototype].
    - Every handler is a function from the component state to the next
      component state.  The clock reads of a handler are explicit
      arguments.  Runtime services whose result the code only passes along
      ([toLocaleString], [encodeURIComponent], [Number]) are section
      variables.
    - The effect that copies the active profile into the order form after a
      render is not part of any handler and is not modelled; the form of a
      later submission is any form. *)

From Stdlib Require Import ZArith QArith Qround Lia Lqa Ascii String.
From stdpp Require Import gmap strings list fin_maps pretty.

Local Open Scope string_scope.
Local Open Scope list_scope.
Local Open Scope Z_scope.

(** ** JavaScript primitives *)

Module JS.

(** A number as user input delivers it. *)
Inductive number :=
  | Finite (q : Q)
  | NaN
  | PosInfinity
  | NegInfinity.

(** [Math.floor] and [Math.round] on a finite number. *)
Definition floor (q : Q) : Z := Qfloor q.
Definition round (q : Q) : Z := Qfloor (q + (1 # 2))%Q.

(** White space and line terminators of ECMAScript in the Latin-1 range:
    TAB, LF, VT, FF, CR, SP and NBSP. *)
Definition isWhiteSpace (c : ascii) : bool :=
  let n := N_of_ascii c in
  ((n =? 9) || (n =? 10) || (n =? 11) || (n =? 12) || (n =? 13)
   || (n =? 32) || (n =? 160))%N.

Fixpoint trimStart (s : string) : string :=
  match s with
  | EmptyString => EmptyString
  | String c s' => if isWhiteSpace c then trimStart s' else s
  end.

Fixpoint trimEnd (s : string) : string :=
  match s with
  | EmptyString => EmptyString
  | String c s' =>
      match trimEnd s' with
      | EmptyString => if isWhiteSpace c then EmptyString else String c EmptyString
      | t => String c t
      end
  end.

(** [s.trim()] *)
Definition trim (s : string) : string := trimEnd (trimStart s).

(** Truthiness of a string: only the empty string is falsy. *)
Definition truthy (s : string) : bool :=
  match s with EmptyString => false | _ => true end.

(** [s || undefined] *)
Definition orUndefined (s : string) : option string :=
  if truthy s then Some s else None.

(** [s || d] *)
Definition orElse (s d : string) : string :=
  if truthy s then s else d.

(** [c.toLowerCase()] on one Latin-1 code unit: A-Z and the accented
    capitals U+00C0..U+00DE (except the multiplication sign U+00D7). *)
Definition lowerChar (c : ascii) : ascii :=
  let n := N_of_ascii c in
  if ((65 <=? n) && (n <=? 90))%N then ascii_of_N (n + 32)
  else if ((192 <=? n) && (n <=? 222) && negb (n =? 215))%N then ascii_of_N (n + 32)
  else c.

Fixpoint toLowerCase (s : string) : string :=
  match s with
  | EmptyString => EmptyString
  | String c s' => String (lowerChar c) (toLowerCase s')
  end.

(** [parts.join(sep)] *)
Fixpoint join (sep : string) (parts : list string) : string :=
  match parts with
  | [] => ""
  | [p] => p
  | p :: rest => p +:+ sep +:+ join sep rest
  end.

(** The character class [[a-z0-9]]. *)
Definition isSlugChar (c : ascii) : bool :=
  let n := N_of_ascii c in
  (((97 <=? n) && (n <=? 122)) || ((48 <=? n) && (n <=? 57)))%N.

(** [s.replace(/[^a-z0-9]+/g, "-")]: every maximal run of characters outside
    the class becomes one hyphen.  [inRun] tells that the previous character
    already belonged to the run being replaced. *)
Fixpoint replaceRuns (inRun : bool) (s : string) : string :=
  match s with
  | EmptyString => EmptyString
  | String c s' =>
      if isSlugChar c then String c (replaceRuns false s')
      else if inRun then replaceRuns true s'
      else String "-" (replaceRuns true s')
  end.

(** [s.replace(/(^-|-$)+/g, "")]: a hyphen at the very start and a hyphen at
    the very end are removed. *)
Definition stripLeadingHyphen (s : string) : string :=
  match s with
  | String "-" s' => s'
  | _ => s
  end.

Fixpoint stripTrailingHyphen (s : string) : string :=
  match s with
  | EmptyString => EmptyString
  | String c EmptyString => if Ascii.eqb c "-" then EmptyString else s
  | String c s' => String c (stripTrailingHyphen s')
  end.

Definition stripEdgeHyphens (s : string) : string :=
  stripTrailingHyphen (stripLeadingHyphen s).

End JS.

Export JS.

(** ** Data model *)

Inductive HeatLevel := Mild | Medium | Hot.

Inductive PaymentMethod := UPI | CashOnDelivery | Card.

Record Spice := {
  spice_id : string;
  spice_name : string;
  spice_description : string;
  spice_notes : option string;
  spice_price : Z;
  spice_unit : string;
  spice_heat : HeatLevel;
  spice_origin : option string;
  spice_isNew : option bool;
  spice_isSignature : option bool;
  spice_colorClass : string;
  spice_imageDataUrl : option string
}.

Record AdminConfig := {
  adminEmail : string;
  brandTagline : string;
  supportPhone : option string;
  upiId : option string;
  admin_city : option string;
  minimumOrderNote : option string
}.

Record User := {
  user_id : string;
  user_name : string;
  user_email : string;
  user_phone : option string;
  user_address : option string;
  user_city : option string;
  user_postalCode : option string
}.

Record OrderItem := {
  item_spiceId : string;
  item_name : string;
  item_quantity : Z;
  item_unitPrice : Z;
  item_subtotal : Z
}.

Record Order := {
  order_id : string;
  createdAt : string;
  customerName : string;
  customerEmail : string;
  customerPhone : option string;
  customerAddress : option string;
  customerCity : option string;
  customerPostalCode : option string;
  order_note : option string;
  order_paymentMethod : PaymentMethod;
  order_items : list OrderItem;
  order_total : Z;
  order_userId : option string
}.

(** The draft of the administrative "new spice" form. *)
Record SpiceDraft := {
  draft_name : string;
  draft_description : string;
  draft_price : string;
  draft_unit : string;
  draft_heat : HeatLevel;
  draft_origin : string;
  draft_notes : string;
  draft_imageDataUrl : option string;
  draft_isSignature : bool
}.

Definition defaultAdminConfig : AdminConfig := {|
  adminEmail := "";
  brandTagline := "Small batch homestyle masalas for modern kitchens.";
  supportPhone := Some "";
  upiId := Some "";
  admin_city := Some "";
  minimumOrderNote := Some "Free delivery in your city for orders above INR 400."
|}.

Definition defaultSpices : list Spice := [
  {| spice_id := "signature-garam-masala";
     spice_name := "Signature Garam Masala";
     spice_description :=
       "Slow roasted whole spices, ground in tiny batches for a deep, homelike base to every curry.";
     spice_notes := Some "Add at the end of cooking for the best aroma.";
     spice_price := 289;
     spice_unit := "100g jar";
     spice_heat := Medium;
     spice_origin := Some "Family recipe developed in a small home kitchen.";
     spice_isNew := Some true;
     spice_isSignature := Some true;
     spice_colorClass := "from-amber-500 via-orange-500 to-rose-500";
     spice_imageDataUrl := None |};
  {| spice_id := "chai-masala";
     spice_name := "Sunday Chai Masala";
     spice_description :=
       "Cardamom forward chai blend with ginger, cinnamon and clove for slow evenings and long calls.";
     spice_notes := Some "Simmer with milk and tea leaves for 3-4 minutes.";
     spice_price := 249;
     spice_unit := "75g tin";
     spice_heat := Mild;
     spice_origin := Some "Inspired by weekend breakfasts at home.";
     spice_isNew := None;
     spice_isSignature := None;
     spice_colorClass := "from-orange-400 via-amber-500 to-amber-600";
     spice_imageDataUrl := None |};
  {| spice_id := "everyday-sabzi";
     spice_name := "Everyday Sabzi Blend";
     spice_description :=
       "Balanced turmeric, cumin and coriander with a bright tomato note - an easy base for daily sabzis.";
     spice_notes := Some "Great for bhindi, aloo, paneer and mixed vegetables.";
     spice_price := 199;
     spice_unit := "100g pouch";
     spice_heat := Mild;
     spice_origin := Some "Designed for quick weekday cooking.";
     spice_isNew := None;
     spice_isSignature := None;
     spice_colorClass := "from-amber-400 via-lime-400 to-emerald-500";
     spice_imageDataUrl := None |};
  {| spice_id := "tadka-chilli-oil";
     spice_name := "Flame Tadka Chilli Oil";
     spice_description :=
       "Crispy chilli, garlic and mustard seeds infused in cold pressed oil - instant tadka for dal or eggs.";
     spice_notes := Some "Use a small spoon at a time. It is hot.";
     spice_price := 320;
     spice_unit := "150ml bottle";
     spice_heat := Hot;
     spice_origin := Some "Tested over many breakfasts before launch.";
     spice_isNew := None;
     spice_isSignature := None;
     spice_colorClass := "from-rose-500 via-orange-500 to-amber-500";
     spice_imageDataUrl := None |}
].

Definition emptyDraft : SpiceDraft := {|
  draft_name := "";
  draft_description := "";
  draft_price := "";
  draft_unit := "100g";
  draft_heat := Medium;
  draft_origin := "";
  draft_notes := "";
  draft_imageDataUrl := None;
  draft_isSignature := false
|}.

(** ** Component state

    One field per [useState] cell of [App] that the engine reads or writes
    (the purely visual [adminTab] is left out), and [locationHref] for the
    last assignment to [window.location.href] ([None]: none was made). *)

Record AppState := {
  adminConfig : AdminConfig;
  spices : list Spice;
  users : list User;
  currentUserId : option string;
  orders : list Order;
  initialized : bool;
  quantities : gmap string Z;
  paymentMethod : PaymentMethod;
  orderName : string;
  orderEmail : string;
  orderPhone : string;
  orderAddress : string;
  orderCity : string;
  orderPostalCode : string;
  orderNote : string;
  orderStatus : option string;
  orderError : option string;
  profileStatus : option string;
  adminMessage : option string;
  newSpice : SpiceDraft;
  locationHref : option string
}.

(** The state setters of the cells ([setX(v)] of the source). *)

Definition setAdminConfig (v : AdminConfig) (st : AppState) : AppState :=
  {| adminConfig := v;
     spices := spices st;
     users := users st;
     currentUserId := currentUserId st;
     orders := orders st;
     initialized := initialized st;
     quantities := quantities st;
     paymentMethod := paymentMethod st;
     orderName := orderName st;
     orderEmail := orderEmail st;
     orderPhone := orderPhone st;
     orderAddress := orderAddress st;
     orderCity := orderCity st;
     orderPostalCode := orderPostalCode st;
     orderNote := orderNote st;
     orderStatus := orderStatus st;
     orderError := orderError st;
     profileStatus := profileStatus st;
     adminMessage := adminMessage st;
     newSpice := newSpice st;
     locationHref := locationHref st |}.

Definition setSpices (v : list Spice) (st : AppState) : AppState :=
  {| adminConfig := adminConfig st;
     spices := v;
     users := users st;
     currentUserId := currentUserId st;
     orders := orders st;
     initialized := initialized st;
     quantities := quantities st;
     paymentMethod := paymentMethod st;
     orderName := orderName st;
     orderEmail := orderEmail st;
     orderPhone := orderPhone st;
     orderAddress := orderAddress st;
     orderCity := orderCity st;
     orderPostalCode := orderPostalCode st;
     orderNote := orderNote st;
     orderStatus := orderStatus st;
     orderError := orderError st;
     profileStatus := profileStatus st;
     adminMessage := adminMessage st;
     newSpice := newSpice st;
     locationHref := locationHref st |}.

Definition setUsers (v : list User) (st : AppState) : AppState :=
  {| adminConfig := adminConfig st;
     spices := spices st;
     users := v;
     currentUserId := currentUserId st;
     orders := orders st;
     initialized := initialized st;
     quantities := quantities st;
     paymentMethod := paymentMethod st;
     orderName := orderName st;
     orderEmail := orderEmail st;
     orderPhone := orderPhone st;
     orderAddress := orderAddress st;
     orderCity := orderCity st;
     orderPostalCode := orderPostalCode st;
     orderNote := orderNote st;
     orderStatus := orderStatus st;
     orderError := orderError st;
     profileStatus := profileStatus st;
     adminMessage := adminMessage st;
     newSpice := newSpice st;
     locationHref := locationHref st |}.

Definition setCurrentUserId (v : option string) (st : AppState) : AppState :=
  {| adminConfig := adminConfig st;
     spices := spices st;
     users := users st;
     currentUserId := v;
     orders := orders st;
     initialized := initialized st;
     quantities := quantities st;
     paymentMethod := paymentMethod st;
     orderName := orderName st;
     orderEmail := orderEmail st;
     orderPhone := orderPhone st;
     orderAddress := orderAddress st;
     orderCity := orderCity st;
     orderPostalCode := orderPostalCode st;
     orderNote := orderNote st;
     orderStatus := orderStatus st;
     orderError := orderError st;
     profileStatus := profileStatus st;
     adminMessage := adminMessage st;
     newSpice := newSpice st;
     locationHref := locationHref st |}.

Definition setOrders (v : list Order) (st : AppState) : AppState :=
  {| adminConfig := adminConfig st;
     spices := spices st;
     users := users st;
     currentUserId := currentUserId st;
     orders := v;
     initialized := initialized st;
     quantities := quantities st;
     paymentMethod := paymentMethod st;
     orderName := orderName st;
     orderEmail := orderEmail st;
     orderPhone := orderPhone st;
     orderAddress := orderAddress st;
     orderCity := orderCity st;
     orderPostalCode := orderPostalCode st;
     orderNote := orderNote st;
     orderStatus := orderStatus st;
     orderError := orderError st;
     profileStatus := profileStatus st;
     adminMessage := adminMessage st;
     newSpice := newSpice st;
     locationHref := locationHref st |}.

Definition setInitialized (v : bool) (st : AppState) : AppState :=
  {| adminConfig := adminConfig st;
     spices := spices st;
     users := users st;
     currentUserId := currentUserId st;
     orders := orders st;
     initialized := v;
     quantities := quantities st;
     paymentMethod := paymentMethod st;
     orderName := orderName st;
     orderEmail := orderEmail st;
     orderPhone := orderPhone st;
     orderAddress := orderAddress st;
     orderCity := orderCity st;
     orderPostalCode := orderPostalCode st;
     orderNote := orderNote st;
     orderStatus := orderStatus st;
     orderError := orderError st;
     profileStatus := profileStatus st;
     adminMessage := adminMessage st;
     newSpice := newSpice st;
     locationHref := locationHref st |}.

Definition setQuantities (v : gmap string Z) (st : AppState) : AppState :=
  {| adminConfig := adminConfig st;
     spices := spices st;
     users := users st;
     currentUserId := currentUserId st;
     orders := orders st;
     initialized := initialized st;
     quantities := v;
     paymentMethod := paymentMethod st;
     orderName := orderName st;
     orderEmail := orderEmail st;
     orderPhone := orderPhone st;
     orderAddress := orderAddress st;
     orderCity := orderCity st;
     orderPostalCode := orderPostalCode st;
     orderNote := orderNote st;
     orderStatus := orderStatus st;
     orderError := orderError st;
     profileStatus := profileStatus st;
     adminMessage := adminMessage st;
     newSpice := newSpice st;
     locationHref := locationHref st |}.

Definition setPaymentMethod (v : PaymentMethod) (st : AppState) : AppState :=
  {| adminConfig := adminConfig st;
     spices := spices st;
     users := users st;
     currentUserId := currentUserId st;
     orders := orders st;
     initialized := initialized st;
     quantities := quantities st;
     paymentMethod := v;
     orderName := orderName st;
     orderEmail := orderEmail st;
     orderPhone := orderPhone st;
     orderAddress := orderAddress st;
     orderCity := orderCity st;
     orderPostalCode := orderPostalCode st;
     orderNote := orderNote st;
     orderStatus := orderStatus st;
     orderError := orderError st;
     profileStatus := profileStatus st;
     adminMessage := adminMessage st;
     newSpice := newSpice st;
     locationHref := locationHref st |}.

Definition setOrderName (v : string) (st : AppState) : AppState :=
  {| adminConfig := adminConfig st;
     spices := spices st;
     users := users st;
     currentUserId := currentUserId st;
     orders := orders st;
     initialized := initialized st;
     quantities := quantities st;
     paymentMethod := paymentMethod st;
     orderName := v;
     orderEmail := orderEmail st;
     orderPhone := orderPhone st;
     orderAddress := orderAddress st;
     orderCity := orderCity st;
     orderPostalCode := orderPostalCode st;
     orderNote := orderNote st;
     orderStatus := orderStatus st;
     orderError := orderError st;
     profileStatus := profileStatus st;
     adminMessage := adminMessage st;
     newSpice := newSpice st;
     locationHref := locationHref st |}.

Definition setOrderEmail (v : string) (st : AppState) : AppState :=
  {| adminConfig := adminConfig st;
     spices := spices st;
     users := users st;
     currentUserId := currentUserId st;
     orders := orders st;
     initialized := initialized st;
     quantities := quantities st;
     paymentMethod := paymentMethod st;
     orderName := orderName st;
     orderEmail := v;
     orderPhone := orderPhone st;
     orderAddress := orderAddress st;
     orderCity := orderCity st;
     orderPostalCode := orderPostalCode st;
     orderNote := orderNote st;
     orderStatus := orderStatus st;
     orderError := orderError st;
     profileStatus := profileStatus st;
     adminMessage := adminMessage st;
     newSpice := newSpice st;
     locationHref := locationHref st |}.

Definition setOrderPhone (v : string) (st : AppState) : AppState :=
  {| adminConfig := adminConfig st;
     spices := spices st;
     users := users st;
     currentUserId := currentUserId st;
     orders := orders st;
     initialized := initialized st;
     quantities := quantities st;
     paymentMethod := paymentMethod st;
     orderName := orderName st;
     orderEmail := orderEmail st;
     orderPhone := v;
     orderAddress := orderAddress st;
     orderCity := orderCity st;
     orderPostalCode := orderPostalCode st;
     orderNote := orderNote st;
     orderStatus := orderStatus st;
     orderError := orderError st;
     profileStatus := profileStatus st;
     adminMessage := adminMessage st;
     newSpice := newSpice st;
     locationHref := locationHref st |}.

Definition setOrderAddress (v : string) (st : AppState) : AppState :=
  {| adminConfig := adminConfig st;
     spices := spices st;
     users := users st;
     currentUserId := currentUserId st;
     orders := orders st;
     initialized := initialized st;
     quantities := quantities st;
     paymentMethod := paymentMethod st;
     orderName := orderName st;
     orderEmail := orderEmail st;
     orderPhone := orderPhone st;
     orderAddress := v;
     orderCity := orderCity st;
     orderPostalCode := orderPostalCode st;
     orderNote := orderNote st;
     orderStatus := orderStatus st;
     orderError := orderError st;
     profileStatus := profileStatus st;
     adminMessage := adminMessage st;
     newSpice := newSpice st;
     locationHref := locationHref st |}.

Definition setOrderCity (v : string) (st : AppState) : AppState :=
  {| adminConfig := adminConfig st;
     spices := spices st;
     users := users st;
     currentUserId := currentUserId st;
     orders := orders st;
     initialized := initialized st;
     quantities := quantities st;
     paymentMethod := paymentMethod st;
     orderName := orderName st;
     orderEmail := orderEmail st;
     orderPhone := orderPhone st;
     orderAddress := orderAddress st;
     orderCity := v;
     orderPostalCode := orderPostalCode st;
     orderNote := orderNote st;
     orderStatus := orderStatus st;
     orderError := orderError st;
     profileStatus := profileStatus st;
     adminMessage := adminMessage st;
     newSpice := newSpice st;
     locationHref := locationHref st |}.

Definition setOrderPostalCode (v : string) (st : AppState) : AppState :=
  {| adminConfig := adminConfig st;
     spices := spices st;
     users := users st;
     currentUserId := currentUserId st;
     orders := orders st;
     initialized := initialized st;
     quantities := quantities st;
     paymentMethod := paymentMethod st;
     orderName := orderName st;
     orderEmail := orderEmail st;
     orderPhone := orderPhone st;
     orderAddress := orderAddress st;
     orderCity := orderCity st;
     orderPostalCode := v;
     orderNote := orderNote st;
     orderStatus := orderStatus st;
     orderError := orderError st;
     profileStatus := profileStatus st;
     adminMessage := adminMessage st;
     newSpice := newSpice st;
     locationHref := locationHref st |}.

Definition setOrderNote (v : string) (st : AppState) : AppState :=
  {| adminConfig := adminConfig st;
     spices := spices st;
     users := users st;
     currentUserId := currentUserId st;
     orders := orders st;
     initialized := initialized st;
     quantities := quantities st;
     paymentMethod := paymentMethod st;
     orderName := orderName st;
     orderEmail := orderEmail st;
     orderPhone := orderPhone st;
     orderAddress := orderAddress st;
     orderCity := orderCity st;
     orderPostalCode := orderPostalCode st;
     orderNote := v;
     orderStatus := orderStatus st;
     orderError := orderError st;
     profileStatus := profileStatus st;
     adminMessage := adminMessage st;
     newSpice := newSpice st;
     locationHref := locationHref st |}.

Definition setOrderStatus (v : option string) (st : AppState) : AppState :=
  {| adminConfig := adminConfig st;
     spices := spices st;
     users := users st;
     currentUserId := currentUserId st;
     orders := orders st;
     initialized := initialized st;
     quantities := quantities st;
     paymentMethod := paymentMethod st;
     orderName := orderName st;
     orderEmail := orderEmail st;
     orderPhone := orderPhone st;
     orderAddress := orderAddress st;
     orderCity := orderCity st;
     orderPostalCode := orderPostalCode st;
     orderNote := orderNote st;
     orderStatus := v;
     orderError := orderError st;
     profileStatus := profileStatus st;
     adminMessage := adminMessage st;
     newSpice := newSpice st;
     locationHref := locationHref st |}.

Definition setOrderError (v : option string) (st : AppState) : AppState :=
  {| adminConfig := adminConfig st;
     spices := spices st;
     users := users st;
     currentUserId := currentUserId st;
     orders := orders st;
     initialized := initialized st;
     quantities := quantities st;
     paymentMethod := paymentMethod st;
     orderName := orderName st;
     orderEmail := orderEmail st;
     orderPhone := orderPhone st;
     orderAddress := orderAddress st;
     orderCity := orderCity st;
     orderPostalCode := orderPostalCode st;
     orderNote := orderNote st;
     orderStatus := orderStatus st;
     orderError := v;
     profileStatus := profileStatus st;
     adminMessage := adminMessage st;
     newSpice := newSpice st;
     locationHref := locationHref st |}.

Definition setProfileStatus (v : option string) (st : AppState) : AppState :=
  {| adminConfig := adminConfig st;
     spices := spices st;
     users := users st;
     currentUserId := currentUserId st;
     orders := orders st;
     initialized := initialized st;
     quantities := quantities st;
     paymentMethod := paymentMethod st;
     orderName := orderName st;
     orderEmail := orderEmail st;
     orderPhone := orderPhone st;
     orderAddress := orderAddress st;
     orderCity := orderCity st;
     orderPostalCode := orderPostalCode st;
     orderNote := orderNote st;
     orderStatus := orderStatus st;
     orderError := orderError st;
     profileStatus := v;
     adminMessage := adminMessage st;
     newSpice := newSpice st;
     locationHref := locationHref st |}.

Definition setAdminMessage (v : option string) (st : AppState) : AppState :=
  {| adminConfig := adminConfig st;
     spices := spices st;
     users := users st;
     currentUserId := currentUserId st;
     orders := orders st;
     initialized := initialized st;
     quantities := quantities st;
     paymentMethod := paymentMethod st;
     orderName := orderName st;
     orderEmail := orderEmail st;
     orderPhone := orderPhone st;
     orderAddress := orderAddress st;
     orderCity := orderCity st;
     orderPostalCode := orderPostalCode st;
     orderNote := orderNote st;
     orderStatus := orderStatus st;
     orderError := orderError st;
     profileStatus := profileStatus st;
     adminMessage := v;
     newSpice := newSpice st;
     locationHref := locationHref st |}.

Definition setNewSpice (v : SpiceDraft) (st : AppState) : AppState :=
  {| adminConfig := adminConfig st;
     spices := spices st;
     users := users st;
     currentUserId := currentUserId st;
     orders := orders st;
     initialized := initialized st;
     quantities := quantities st;
     paymentMethod := paymentMethod st;
     orderName := orderName st;
     orderEmail := orderEmail st;
     orderPhone := orderPhone st;
     orderAddress := orderAddress st;
     orderCity := orderCity st;
     orderPostalCode := orderPostalCode st;
     orderNote := orderNote st;
     orderStatus := orderStatus st;
     orderError := orderError st;
     profileStatus := profileStatus st;
     adminMessage := adminMessage st;
     newSpice := v;
     locationHref := locationHref st |}.

Definition setLocationHref (v : option string) (st : AppState) : AppState :=
  {| adminConfig := adminConfig st;
     spices := spices st;
     users := users st;
     currentUserId := currentUserId st;
     orders := orders st;
     initialized := initialized st;
     quantities := quantities st;
     paymentMethod := paymentMethod st;
     orderName := orderName st;
     orderEmail := orderEmail st;
     orderPhone := orderPhone st;
     orderAddress := orderAddress st;
     orderCity := orderCity st;
     orderPostalCode := orderPostalCode st;
     orderNote := orderNote st;
     orderStatus := orderStatus st;
     orderError := orderError st;
     profileStatus := profileStatus st;
     adminMessage := adminMessage st;
     newSpice := newSpice st;
     locationHref := v |}.

(** The state of a freshly mounted component. *)
Definition initialState : AppState := {|
  adminConfig := defaultAdminConfig;
  spices := defaultSpices;
  users := [];
  currentUserId := None;
  orders := [];
  initialized := false;
  quantities := ∅;
  paymentMethod := UPI;
  orderName := "";
  orderEmail := "";
  orderPhone := "";
  orderAddress := "";
  orderCity := "";
  orderPostalCode := "";
  orderNote := "";
  orderStatus := None;
  orderError := None;
  profileStatus := None;
  adminMessage := None;
  newSpice := emptyDraft;
  locationHref := None
|}.

(** ** PersistenceGateway

    [localStorage] holds one text per key.  The text itself is not modelled:
    a slot holds what [JSON.parse] makes of it, and [JSON.stringify] of a
    store is the document [JSON.parse] reads back from its text (the
    contract of the two runtime functions on the values stored here:
    strings, integers, booleans, arrays and plain objects; an [undefined]
    property is not written). *)

#[local] Unset Elimination Schemes.
Inductive json :=
  | JNull
  | JBool (b : bool)
  | JNumber (n : Z)
  | JString (s : string)
  | JArray (xs : list json)
  | JObject (props : list (string * json)).
#[local] Set Elimination Schemes.

Inductive document :=
  | EmptyText                (* the empty string, which is falsy *)
  | Malformed                (* a text on which [JSON.parse] throws *)
  | Parsed (j : json).

Module STORAGE_KEYS.
Definition admin : string := "homelike_admin_v1".
Definition spices : string := "homelike_spices_v1".
Definition users : string := "homelike_users_v1".
Definition orders : string := "homelike_orders_v1".
End STORAGE_KEYS.

(** A property of an object that is written when it is defined. *)
Definition prop {A} (name : string) (enc : A → json) (v : A) : list (string * json) :=
  [(name, enc v)].
Definition optProp {A} (name : string) (enc : A → json) (v : option A)
    : list (string * json) :=
  match v with Some x => [(name, enc x)] | None => [] end.



Definition adminToJSON (c : AdminConfig) : json :=
  JObject (prop "adminEmail" JString (adminEmail c)
           ++ prop "brandTagline" JString (brandTagline c)
           ++ optProp "supportPhone" JString (supportPhone c)
           ++ optProp "upiId" JString (upiId c)
           ++ optProp "city" JString (admin_city c)
           ++ optProp "minimumOrderNote" JString (minimumOrderNote c)).





(** Reading a parsed document at the declared type ([parsed as T] followed by
    the property reads of the code).  [None]: the document does not have the
    shape of the interface. *)
Fixpoint getProp (name : string) (props : list (string * json)) : option json :=
  match props with
  | [] => None
  | (k, v) :: rest => if String.eqb k name then Some v else getProp name rest
  end.

Definition propsOf (j : json) : option (list (string * json)) :=
  match j with JObject props => Some props | _ => None end.

Definition asString (j : json) : option string :=
  match j with JString s => Some s | _ => None end.
Definition asNumber (j : json) : option Z :=
  match j with JNumber n => Some n | _ => None end.
Definition asBool (j : json) : option bool :=
  match j with JBool b => Some b | _ => None end.
Definition asHeat (j : json) : option HeatLevel :=
  match j with
  | JString "Mild" => Some Mild
  | JString "Medium" => Some Medium
  | JString "Hot" => Some Hot
  | _ => None
  end.
Definition asPayment (j : json) : option PaymentMethod :=
  match j with
  | JString "UPI" => Some UPI
  | JString "Cash on Delivery" => Some CashOnDelivery
  | JString "Card" => Some Card
  | _ => None
  end.

(** A required and an optional property. *)
Definition required {A} (dec : json → option A) (name : string)
    (props : list (string * json)) : option A :=
  getProp name props ≫= dec.
Definition optional {A} (dec : json → option A) (name : string)
    (props : list (string * json)) : option (option A) :=
  match getProp name props with
  | None => Some None
  | Some v => Some <$> dec v
  end.

Definition asArray {A} (dec : json → option A) (j : json) : option (list A) :=
  match j with JArray xs => mapM dec xs | _ => None end.

Definition adminOfProps (ps : list (string * json)) : option AdminConfig :=
  a ← required asString "adminEmail" ps;
  b ← required asString "brandTagline" ps;
  c ← optional asString "supportPhone" ps;
  d ← optional asString "upiId" ps;
  e ← optional asString "city" ps;
  f ← optional asString "minimumOrderNote" ps;
  Some {| adminEmail := a; brandTagline := b; supportPhone := c; upiId := d;
          admin_city := e; minimumOrderNote := f |}.

Definition spiceOfJSON (j : json) : option Spice :=
  ps ← propsOf j;
  a ← required asString "id" ps;
  b ← required asString "name" ps;
  c ← required asString "description" ps;
  d ← optional asString "notes" ps;
  e ← required asNumber "price" ps;
  f ← required asString "unit" ps;
  g ← required asHeat "heat" ps;
  h ← optional asString "origin" ps;
  i ← optional asBool "isNew" ps;
  k ← optional asBool "isSignature" ps;
  l ← required asString "colorClass" ps;
  m ← optional asString "imageDataUrl" ps;
  Some {| spice_id := a; spice_name := b; spice_description := c; spice_notes := d;
          spice_price := e; spice_unit := f; spice_heat := g; spice_origin := h;
          spice_isNew := i; spice_isSignature := k; spice_colorClass := l;
          spice_imageDataUrl := m |}.

Definition userOfJSON (j : json) : option User :=
  ps ← propsOf j;
  a ← required asString "id" ps;
  b ← required asString "name" ps;
  c ← required asString "email" ps;
  d ← optional asString "phone" ps;
  e ← optional asString "address" ps;
  f ← optional asString "city" ps;
  g ← optional asString "postalCode" ps;
  Some {| user_id := a; user_name := b; user_email := c; user_phone := d;
          user_address := e; user_city := f; user_postalCode := g |}.

Definition itemOfJSON (j : json) : option OrderItem :=
  ps ← propsOf j;
  a ← required asString "spiceId" ps;
  b ← required asString "name" ps;
  c ← required asNumber "quantity" ps;
  d ← required asNumber "unitPrice" ps;
  e ← required asNumber "subtotal" ps;
  Some {| item_spiceId := a; item_name := b; item_quantity := c;
          item_unitPrice := d; item_subtotal := e |}.

Definition orderOfJSON (j : json) : option Order :=
  ps ← propsOf j;
  a ← required asString "id" ps;
  b ← required asString "createdAt" ps;
  c ← required asString "customerName" ps;
  d ← required asString "customerEmail" ps;
  e ← optional asString "customerPhone" ps;
  f ← optional asString "customerAddress" ps;
  g ← optional asString "customerCity" ps;
  h ← optional asString "customerPostalCode" ps;
  i ← optional asString "note" ps;
  k ← required asPayment "paymentMethod" ps;
  l ← required (asArray itemOfJSON) "items" ps;
  m ← required asNumber "total" ps;
  n ← optional asString "userId" ps;
  Some {| order_id := a; createdAt := b; customerName := c; customerEmail := d;
          customerPhone := e; customerAddress := f; customerCity := g;
          customerPostalCode := h; order_note := i; order_paymentMethod := k;
          order_items := l; order_total := m; order_userId := n |}.

(** [{ ...defaults, ...parsed }]: a property of [parsed] overrides the same
    property of [defaults].  The spread of an array adds index properties
    only, none of which the configuration reads. *)
Definition spreadOver (defaults : list (string * json)) (parsed : json)
    : list (string * json) :=
  match parsed with
  | JObject props => props ++ defaults
  | _ => defaults
  end.

(** The properties of [defaultAdminConfig]. *)
Definition defaultAdminProps : list (string * json) :=
  match adminToJSON defaultAdminConfig with
  | JObject props => props
  | _ => []
  end.

(** [parsed && typeof parsed === "object"] *)
Definition isObjectLike (j : json) : bool :=
  match j with JObject _ | JArray _ => true | _ => false end.

(** How a part of the load effect completes: normally, by throwing (the
    state reached so far is kept), or with a document that the interfaces of
    the program do not describe. *)
Inductive completion :=
  | Normal (st : AppState)
  | Throw (st : AppState)
  | Untyped.

Definition andThen (c : completion) (f : AppState → completion) : completion :=
  match c with Normal st => f st | _ => c end.

Definition loadAdmin (storage : gmap string document) (st : AppState) : completion :=
  match storage !! STORAGE_KEYS.admin with
  | None | Some EmptyText => Normal st
  | Some Malformed => Throw st
  | Some (Parsed parsed) =>
      if isObjectLike parsed then
        match adminOfProps (spreadOver defaultAdminProps parsed) with
        | Some c => Normal (setAdminConfig c st)
        | None => Untyped
        end
      else Normal st
  end.

Definition loadSpices (storage : gmap string document) (st : AppState) : completion :=
  match storage !! STORAGE_KEYS.spices with
  | None | Some EmptyText => Normal st
  | Some Malformed => Throw st
  | Some (Parsed (JArray [])) => Normal st
  | Some (Parsed (JArray xs)) =>
      match mapM spiceOfJSON xs with
      | Some l => Normal (setSpices l st)
      | None => Untyped
      end
  | Some (Parsed _) => Normal st
  end.

Definition loadUsers (storage : gmap string document) (st : AppState) : completion :=
  match storage !! STORAGE_KEYS.users with
  | None | Some EmptyText => Normal st
  | Some Malformed => Throw st
  | Some (Parsed (JArray xs)) =>
      match mapM userOfJSON xs with
      | Some l => Normal (setUsers l st)
      | None => Untyped
      end
  | Some (Parsed _) => Normal st
  end.

Definition loadOrders (storage : gmap string document) (st : AppState) : completion :=
  match storage !! STORAGE_KEYS.orders with
  | None | Some EmptyText => Normal st
  | Some Malformed => Throw st
  | Some (Parsed (JArray xs)) =>
      match mapM orderOfJSON xs with
      | Some l => Normal (setOrders l st)
      | None => Untyped
      end
  | Some (Parsed _) => Normal st
  end.

(** The load effect of the first render: the four reads in one [try], the
    [catch] that only logs, and [setInitialized(true)] in [finally]. *)
Definition loadEffect (storage : gmap string document) (st : AppState)
    : option AppState :=
  match andThen (andThen (andThen (loadAdmin storage st) (loadSpices storage))
                   (loadUsers storage)) (loadOrders storage) with
  | Normal st' | Throw st' => Some (setInitialized true st')
  | Untyped => None
  end.





(** ** CartCalculator *)

(** [quantities[id] ?? 0] *)
Definition quantityOf (q : gmap string Z) (id : string) : Z :=
  default 0 (q !! id).

(** [Number.isFinite(value) ? Math.max(0, Math.floor(value)) : 0]; the finite
    numbers are the ones of the first constructor. *)
Definition safeQuantity (value : number) : Z :=
  match value with
  | Finite q => Z.max 0 (floor q)
  | _ => 0
  end.

(** The updater passed to [setQuantities] by [handleQuantityChange]. *)
Definition updateQuantity (spiceId : string) (value : number)
    (prev : gmap string Z) : gmap string Z :=
  let safe := safeQuantity value in
  if safe <=? 0 then delete spiceId prev else <[spiceId := safe]> prev.

Definition handleQuantityChange (spiceId : string) (value : number)
    (st : AppState) : AppState :=
  setQuantities (updateQuantity spiceId value (quantities st)) st.

(** [spices.reduce((sum, spice) => sum + spice.price * (quantities[spice.id] ?? 0), 0)] *)
Definition estimatedTotalOf (catalog : list Spice) (q : gmap string Z) : Z :=
  foldl (λ sum spice, sum + spice_price spice * quantityOf q (spice_id spice)) 0 catalog.

Definition estimatedTotal (st : AppState) : Z :=
  estimatedTotalOf (spices st) (quantities st).

(** [Object.values(quantities).some((q) => q > 0)] *)
Definition hasSelectionOf (q : gmap string Z) : bool :=
  existsb (λ v, 0 <? v) (map snd (map_to_list q)).

Definition hasSelection (st : AppState) : bool := hasSelectionOf (quantities st).

(** A sequence of quantity changes, one call of [handleQuantityChange] after
    the other. *)
Definition applyChanges (calls : list (string * number)) (st : AppState)
    : AppState :=
  foldl (λ s call, handleQuantityChange call.1 call.2 s) st calls.

(** ** ProfileStore *)

(** The predicate of [users.find] in [handleSaveProfile]:
    [u.email.toLowerCase() === orderEmail.trim().toLowerCase()]. *)
Definition profileMatches (email : string) (u : User) : bool :=
  String.eqb (toLowerCase (user_email u)) (toLowerCase (trim email)).

(** The identifier of a profile created at clock reading [now]. *)
Definition newUserId (now : Z) : string := "user-" +:+ pretty now.

(** The record [base] that [handleSaveProfile] builds from the form. *)
Definition profileFromForm (id : string) (st : AppState) : User := {|
  user_id := id;
  user_name := trim (orderName st);
  user_email := trim (orderEmail st);
  user_phone := orUndefined (trim (orderPhone st));
  user_address := orUndefined (trim (orderAddress st));
  user_city := orUndefined (trim (orderCity st));
  user_postalCode := orUndefined (trim (orderPostalCode st))
|}.

(** [prev.map((u) => (u.id === existing.id ? base : u))] *)
Definition replaceById (existing base : User) (prev : list User) : list User :=
  map (λ u, if String.eqb (user_id u) (user_id existing) then base else u) prev.

Definition handleSaveProfile (now : Z) (st0 : AppState) : AppState :=
  let st := setProfileStatus None st0 in
  if negb (truthy (trim (orderName st))) || negb (truthy (trim (orderEmail st))) then
    setProfileStatus
      (Some "Add at least name and email before saving as a profile.") st
  else
    let existing := List.find (profileMatches (orderEmail st)) (users st) in
    match existing with
    | Some e =>
        let base := profileFromForm (user_id e) st in
        setProfileStatus (Some "Updated your saved profile.")
          (setCurrentUserId (Some (user_id e))
             (setUsers (replaceById e base (users st)) st))
    | None =>
        let base := profileFromForm (newUserId now) st in
        setProfileStatus (Some "Saved a new profile in this browser.")
          (setCurrentUserId (Some (user_id base))
             (setUsers (users st ++ [base]) st))
    end.

(** ** OrderComposer and ReceiptFormatter *)

Definition newline : string := String "010"%char EmptyString.
Definition dquote : string := String "034"%char EmptyString.

Definition missingContactMessage : string :=
  "Please add your name and email so we can confirm your order.".
Definition emptyCartMessage : string :=
  "Add at least one spice to your order.".
Definition draftedMessage : string :=
  "Order drafted. Your email app should open with a ready to send order email to the Homelike admin.".
Definition storedLocallyMessage : string :=
  "Order saved in the local admin panel. Add an admin email in the Admin Panel to enable one click email sending.".

(** [spices.map((spice) => ({ spice, qty: quantities[spice.id] ?? 0 })).filter((x) => x.qty > 0)] *)
Definition selectedOf (catalog : list Spice) (q : gmap string Z) : list (Spice * Z) :=
  List.filter (λ x, 0 <? x.2)
    (map (λ spice, (spice, quantityOf q (spice_id spice))) catalog).

Definition makeItem (x : Spice * Z) : OrderItem := {|
  item_spiceId := spice_id x.1;
  item_name := spice_name x.1;
  item_quantity := x.2;
  item_unitPrice := spice_price x.1;
  item_subtotal := spice_price x.1 * x.2
|}.

(** [items.reduce((sum, item) => sum + item.subtotal, 0)] *)
Definition totalOf (items : list OrderItem) : Z :=
  foldl (λ sum item, sum + item_subtotal item) 0 items.

Definition newOrderId (now : Z) : string := "HL-" +:+ pretty now.

Definition buildOrder (now : Z) (iso : string) (st : AppState)
    (items : list OrderItem) : Order := {|
  order_id := newOrderId now;
  createdAt := iso;
  customerName := trim (orderName st);
  customerEmail := trim (orderEmail st);
  customerPhone := orUndefined (trim (orderPhone st));
  customerAddress := orUndefined (trim (orderAddress st));
  customerCity := orUndefined (trim (orderCity st));
  customerPostalCode := orUndefined (trim (orderPostalCode st));
  order_note := orUndefined (trim (orderNote st));
  order_paymentMethod := paymentMethod st;
  order_items := items;
  order_total := totalOf items;
  order_userId := currentUserId st
|}.

Definition paymentLabel (m : PaymentMethod) : string :=
  match m with
  | UPI => "UPI"
  | CashOnDelivery => "Cash on Delivery"
  | Card => "Card"
  end.

(** Truthiness of an optional string: [undefined] and the empty string are
    falsy. *)
Definition truthyOpt (o : option string) : bool :=
  match o with Some s => truthy s | None => false end.

(** [o ?? ""] *)
Definition orEmpty (o : option string) : string := default "" o.

(** The [addressLines] array of [handlePlaceOrder]. *)
Definition addressLinesOf (order : Order) : list string :=
  (if truthyOpt (customerAddress order) then [orEmpty (customerAddress order)] else [])
  ++ (if truthyOpt (customerCity order) || truthyOpt (customerPostalCode order)
      then [trim (orEmpty (customerCity order) +:+ " " +:+ orEmpty (customerPostalCode order))]
      else []).

(** The line pushed for the address, if any:
    [if (addressLines.length) bodyLines.push(`Address: ${addressLines.join(", ")}`)]. *)
Definition addressLineOf (order : Order) : list string :=
  match addressLinesOf order with
  | [] => []
  | parts => ["Address: " +:+ join ", " parts]
  end.

Section Engine.

(** [formatINR]: [amount.toLocaleString("en-IN", ...)] *)
Variable formatINR : Z → string.
(** [encodeURIComponent] *)
Variable encodeURIComponent : string → string.
(** [Number(text)] *)
Variable toNumber : string → number.

Definition lineItemText (item : OrderItem) : string :=
  "- " +:+ item_name item +:+ " x" +:+ pretty (item_quantity item) +:+ " @ "
  +:+ formatINR (item_unitPrice item) +:+ " = " +:+ formatINR (item_subtotal item).

Definition lineItemsText (items : list OrderItem) : string :=
  join newline (map lineItemText items).

(** The [bodyLines] array of [handlePlaceOrder]. *)
Definition bodyLinesOf (order : Order) : list string :=
  [ "New Homelike order: " +:+ order_id order;
    "";
    "Customer: " +:+ customerName order;
    "Email: " +:+ customerEmail order ]
  ++ (if truthyOpt (customerPhone order)
      then ["Phone: " +:+ orEmpty (customerPhone order)] else [])
  ++ addressLineOf order
  ++ [ ""; "Items:"; lineItemsText (order_items order); "" ]
  ++ [ "Total: " +:+ formatINR (order_total order) ]
  ++ [ "Payment method: " +:+ paymentLabel (order_paymentMethod order) ]
  ++ (if truthyOpt (order_note order)
      then [""; "Customer note: " +:+ orEmpty (order_note order)] else [])
  ++ [ ""; "This order was placed from the Homelike startup site." ].

Definition emailBodyOf (order : Order) : string := join newline (bodyLinesOf order).

Definition subjectOf (order : Order) : string :=
  "New Homelike order " +:+ order_id order.

(** The [mailto] address assigned to [window.location.href]. *)
Definition mailtoOf (recipient : string) (order : Order) : string :=
  "mailto:" +:+ encodeURIComponent recipient
  +:+ "?subject=" +:+ encodeURIComponent (subjectOf order)
  +:+ "&body=" +:+ encodeURIComponent (emailBodyOf order).

(** [handlePlaceOrder]; [now] is the reading of [Date.now()], [iso] the text
    of [new Date().toISOString()].  The handler runs in a browser, so
    [typeof window !== "undefined"] holds. *)
Definition handlePlaceOrder (now : Z) (iso : string) (st0 : AppState) : AppState :=
  let st := setOrderStatus None (setOrderError None st0) in
  if negb (truthy (trim (orderName st))) || negb (truthy (trim (orderEmail st))) then
    setOrderError (Some missingContactMessage) st
  else
    let selected := selectedOf (spices st) (quantities st) in
    match selected with
    | [] => setOrderError (Some emptyCartMessage) st
    | _ :: _ =>
        let items := map makeItem selected in
        let order := buildOrder now iso st items in
        let st1 := setOrders (orders st ++ [order]) st in
        let trimmedAdminEmail := trim (adminEmail (adminConfig st)) in
        let st2 :=
          if truthy trimmedAdminEmail then
            setOrderStatus (Some draftedMessage)
              (setLocationHref (Some (mailtoOf trimmedAdminEmail order)) st1)
          else
            setOrderStatus (Some storedLocallyMessage) st1 in
        setOrderNote "" (setQuantities ∅ st2)
    end.

(** The state that the accepting exit of [handlePlaceOrder] reaches with the
    composed order. *)
Definition acceptedState (st : AppState) (order : Order) : AppState :=
  let st1 := setOrders (orders st ++ [order]) (setOrderStatus None (setOrderError None st)) in
  let recipient := trim (adminEmail (adminConfig st)) in
  setOrderNote ""
    (setQuantities ∅
       (if truthy recipient
        then setOrderStatus (Some draftedMessage)
               (setLocationHref (Some (mailtoOf recipient order)) st1)
        else setOrderStatus (Some storedLocallyMessage) st1)).

(** ** CatalogStore *)

Definition nameMissingMessage : string := "Give your spice a name before adding it.".
Definition invalidPriceMessage : string := "Enter a valid price in INR.".

(** [name.toLowerCase().replace(/[^a-z0-9]+/g, "-").replace(/(^-|-$)+/g, "")] *)
Definition slugOf (name : string) : string :=
  stripEdgeHyphens (replaceRuns false (toLowerCase name)).

Definition idTaken (catalog : list Spice) (id : string) : bool :=
  existsb (λ s, String.eqb (spice_id s) id) catalog.

(** The identifier of a created spice; the two readings of [Date.now()] are
    the one of the placeholder and the one of the suffix. *)
Definition newSpiceId (nowPlaceholder nowSuffix : Z) (catalog : list Spice)
    (name : string) : string :=
  let baseId := slugOf name in
  let candidateId := orElse baseId ("spice-" +:+ pretty nowPlaceholder) in
  if idTaken catalog candidateId
  then candidateId +:+ "-" +:+ pretty nowSuffix
  else candidateId.

Definition createdSpice (id : string) (price : Z) (d : SpiceDraft) : Spice := {|
  spice_id := id;
  spice_name := trim (draft_name d);
  spice_description := orElse (trim (draft_description d)) "Custom Homelike blend.";
  spice_notes := orUndefined (trim (draft_notes d));
  spice_price := price;
  spice_unit := orElse (trim (draft_unit d)) "100g";
  spice_heat := draft_heat d;
  spice_origin := orUndefined (trim (draft_origin d));
  spice_isNew := Some true;
  spice_isSignature := Some (draft_isSignature d);
  spice_colorClass := "from-amber-500 via-orange-500 to-rose-500";
  spice_imageDataUrl := draft_imageDataUrl d
|}.

Definition addedMessage (name : string) : string :=
  "Added " +:+ dquote +:+ name +:+ dquote +:+ " to your Homelike catalog.".

Definition handleCreateSpice (nowPlaceholder nowSuffix : Z) (st0 : AppState)
    : AppState :=
  let st := setAdminMessage None st0 in
  let d := newSpice st in
  if negb (truthy (trim (draft_name d))) then
    setAdminMessage (Some nameMissingMessage) st
  else
    match toNumber (draft_price d) with
    | Finite priceNumber =>
        if Qle_bool priceNumber 0 then
          setAdminMessage (Some invalidPriceMessage) st
        else
          let id := newSpiceId nowPlaceholder nowSuffix (spices st) (draft_name d) in
          let created := createdSpice id (round priceNumber) d in
          setAdminMessage (Some (addedMessage (spice_name created)))
            (setNewSpice emptyDraft
               (setSpices (spices st ++ [created]) st))
    | _ => setAdminMessage (Some invalidPriceMessage) st
    end.

(** ** Invariants of the data model and definitions that follow the
       specification's wording *)

(** CartLine: every stored quantity is an integer of at least 1. *)
Definition cartPositive (q : gmap string Z) : Prop :=
  map_Forall (λ _ n, 0 < n) q.

(** Product identifiers are unique in the catalog. *)
Definition catalogUnique (catalog : list Spice) : Prop :=
  NoDup (map spice_id catalog).

(** Every cart entry's identifier resolves in the catalog. *)
Definition cartResolves (catalog : list Spice) (q : gmap string Z) : Prop :=
  map_Forall (λ id _, id ∈ map spice_id catalog) q.





(** The key of a profile: its email, compared without regard to case. *)
Definition profileKey (u : User) : string := toLowerCase (user_email u).

(** At most one profile per normalized email, and profile identifiers are
    unique. *)
Definition profilesUnique (l : list User) : Prop :=
  NoDup (map profileKey l) ∧ NoDup (map user_id l).

(** The profiles stored for the email of a form. *)
Definition profilesFor (email : string) (l : list User) : list User :=
  List.filter (profileMatches email) l.



(** The address line as the specification words it: the non-empty parts
    street, city and postal code joined with a comma and a space. *)
Definition specAddressLine (order : Order) : list string :=
  let parts : list string :=
    ((if truthyOpt (customerAddress order) then [orEmpty (customerAddress order)] else [])
     ++ (if truthyOpt (customerCity order) then [orEmpty (customerCity order)] else [])
     ++ (if truthyOpt (customerPostalCode order)
         then [orEmpty (customerPostalCode order)] else []))%list in
  match parts with
  | [] => []
  | _ => ["Address: " +:+ join ", " parts]
  end.

(** The address line as the code builds it: the street, if any, and the
    city and postal code, of which the two are separated by one space,
    joined with a comma and a space. *)
Definition cityPostalOf (city postal : string) : string :=
  if truthy city
  then (if truthy postal then city +:+ " " +:+ postal else city)
  else postal.

Definition addressPartsOf (street city postal : string) : list string :=
  (if truthy street then [street] else [])
  ++ (if truthy city || truthy postal then [cityPostalOf city postal] else []).

(** The lines of a receipt that are address lines. *)
Fixpoint startsWith (p s : string) : bool :=
  match p, s with
  | EmptyString, _ => true
  | String a p', String b s' => Ascii.eqb a b && startsWith p' s'
  | String _ _, EmptyString => false
  end.

Definition isAddressLine (line : string) : bool := startsWith "Address: " line.

(** ** The remaining handlers, the effects and the controls that call them *)

(** [currentUser]:
    [currentUserId ? users.find((u) => u.id === currentUserId) ?? null : null] *)
Definition currentUser (st : AppState) : option User :=
  match currentUserId st with
  | Some id =>
      if truthy id
      then List.find (λ u, String.eqb (user_id u) id) (users st)
      else None
  | None => None
  end.

(** The six assignments that copy a profile into the order form. *)
Definition fillForm (user : User) (st : AppState) : AppState :=
  setOrderPostalCode (orEmpty (user_postalCode user))
    (setOrderCity (orEmpty (user_city user))
       (setOrderAddress (orEmpty (user_address user))
          (setOrderPhone (orEmpty (user_phone user))
             (setOrderEmail (user_email user)
                (setOrderName (user_name user) st))))).

Definition handleUseProfile (user : User) (st : AppState) : AppState :=
  fillForm user (setCurrentUserId (Some (user_id user)) st).

(** The body of the effect that runs when [currentUser] has changed. *)
Definition profileEffect (st : AppState) : AppState :=
  match currentUser st with
  | None => st
  | Some user => fillForm user st
  end.

(** The quantity controls of a product card; [qty] is
    [quantities[spice.id] ?? 0] of the render. *)
Definition ofInteger (z : Z) : number := Finite (inject_Z z).

(** [v || 0] on a number: 0 and [NaN] are falsy. *)
Definition orZero (v : number) : number :=
  match v with
  | Finite q => if Qeq_bool q 0 then Finite 0 else v
  | NaN => Finite 0
  | _ => v
  end.

Definition clickMinus (spice : Spice) (st : AppState) : AppState :=
  handleQuantityChange (spice_id spice)
    (ofInteger (quantityOf (quantities st) (spice_id spice) - 1)) st.

Definition clickPlus (spice : Spice) (st : AppState) : AppState :=
  handleQuantityChange (spice_id spice)
    (ofInteger (quantityOf (quantities st) (spice_id spice) + 1)) st.

Definition typeQuantity (spice : Spice) (text : string) (st : AppState) : AppState :=
  handleQuantityChange (spice_id spice) (orZero (toNumber text)) st.

(** [reader.onloadend] of [handleSpiceImageChange]; [result] is the text
    that the reader delivers, [None] when it delivers none. *)
Definition imageLoaded (result : option string) (st : AppState) : AppState :=
  match result with
  | Some url =>
      setNewSpice
        {| draft_name := draft_name (newSpice st);
           draft_description := draft_description (newSpice st);
           draft_price := draft_price (newSpice st);
           draft_unit := draft_unit (newSpice st);
           draft_heat := draft_heat (newSpice st);
           draft_origin := draft_origin (newSpice st);
           draft_notes := draft_notes (newSpice st);
           draft_imageDataUrl := Some url;
           draft_isSignature := draft_isSignature (newSpice st) |} st
  | None => st
  end.

(** The inputs of the admin settings: [setAdminConfig((prev) => ({ ...prev, field: value }))]. *)
Inductive adminEdit :=
  | AdminEmail (v : string)
  | BrandTagline (v : string)
  | SupportPhone (v : string)
  | AdminCity (v : string)
  | UpiId (v : string)
  | MinimumOrderNote (v : string).

Definition applyAdminEdit (e : adminEdit) (prev : AdminConfig) : AdminConfig :=
  {| adminEmail := match e with AdminEmail v => v | _ => adminEmail prev end;
     brandTagline := match e with BrandTagline v => v | _ => brandTagline prev end;
     supportPhone := match e with SupportPhone v => Some v | _ => supportPhone prev end;
     upiId := match e with UpiId v => Some v | _ => upiId prev end;
     admin_city := match e with AdminCity v => Some v | _ => admin_city prev end;
     minimumOrderNote :=
       match e with MinimumOrderNote v => Some v | _ => minimumOrderNote prev end |}.

(** The inputs of the new spice form: [setNewSpice((prev) => ({ ...prev, field: value }))]. *)
Inductive draftEdit :=
  | DraftName (v : string)
  | DraftPrice (v : string)
  | DraftUnit (v : string)
  | DraftHeat (v : HeatLevel)
  | DraftSignature (v : bool)
  | DraftDescription (v : string)
  | DraftNotes (v : string)
  | DraftOrigin (v : string).

Definition applyDraftEdit (e : draftEdit) (prev : SpiceDraft) : SpiceDraft :=
  {| draft_name := match e with DraftName v => v | _ => draft_name prev end;
     draft_description :=
       match e with DraftDescription v => v | _ => draft_description prev end;
     draft_price := match e with DraftPrice v => v | _ => draft_price prev end;
     draft_unit := match e with DraftUnit v => v | _ => draft_unit prev end;
     draft_heat := match e with DraftHeat v => v | _ => draft_heat prev end;
     draft_origin := match e with DraftOrigin v => v | _ => draft_origin prev end;
     draft_notes := match e with DraftNotes v => v | _ => draft_notes prev end;
     draft_imageDataUrl := draft_imageDataUrl prev;
     draft_isSignature :=
       match e with DraftSignature v => v | _ => draft_isSignature prev end |}.

(** The inputs of the order form. *)
Inductive formEdit :=
  | FormName (v : string)
  | FormEmail (v : string)
  | FormPhone (v : string)
  | FormCity (v : string)
  | FormAddress (v : string)
  | FormPostalCode (v : string)
  | FormNote (v : string).

Definition applyFormEdit (e : formEdit) (st : AppState) : AppState :=
  match e with
  | FormName v => setOrderName v st
  | FormEmail v => setOrderEmail v st
  | FormPhone v => setOrderPhone v st
  | FormCity v => setOrderCity v st
  | FormAddress v => setOrderAddress v st
  | FormPostalCode v => setOrderPostalCode v st
  | FormNote v => setOrderNote v st
  end.

(** What can happen to a mounted component: the events of its controls, with
    the clock readings of the handlers they call, and the runs of the
    profile effect.  A product card exists for each product of the catalog
    and a [Use] button for each profile of the store; the controls are
    named by the position of their product or profile.  The image result
    arrives at any time, and a submission reaches its handler whenever it
    happens (the disabled state of the submit button is not modelled). *)
Inductive action :=
  | ClickMinus (i : nat)
  | ClickPlus (i : nat)
  | TypeQuantity (i : nat) (text : string)
  | EditForm (e : formEdit)
  | ChoosePayment (m : PaymentMethod)
  | SubmitOrder (now : Z) (iso : string)
  | SaveProfile (now : Z)
  | UseProfile (i : nat)
  | RunProfileEffect
  | EditAdmin (e : adminEdit)
  | EditDraft (e : draftEdit)
  | ImageLoaded (result : option string)
  | SubmitSpice (nowPlaceholder nowSuffix : Z).

Definition onProduct (i : nat) (f : Spice → AppState → AppState) (st : AppState)
    : AppState :=
  match spices st !! i with Some spice => f spice st | None => st end.

Definition dispatch (a : action) (st : AppState) : AppState :=
  match a with
  | ClickMinus i => onProduct i clickMinus st
  | ClickPlus i => onProduct i clickPlus st
  | TypeQuantity i text => onProduct i (λ spice, typeQuantity spice text) st
  | EditForm e => applyFormEdit e st
  | ChoosePayment m => setPaymentMethod m st
  | SubmitOrder now iso => handlePlaceOrder now iso st
  | SaveProfile now => handleSaveProfile now st
  | UseProfile i =>
      match users st !! i with Some user => handleUseProfile user st | None => st end
  | RunProfileEffect => profileEffect st
  | EditAdmin e => setAdminConfig (applyAdminEdit e (adminConfig st)) st
  | EditDraft e => setNewSpice (applyDraftEdit e (newSpice st)) st
  | ImageLoaded result => imageLoaded result st
  | SubmitSpice nowPlaceholder nowSuffix =>
      handleCreateSpice nowPlaceholder nowSuffix st
  end.

(** A run of the component: the actions in the order they happen. *)
Definition run (actions : list action) (st : AppState) : AppState :=
  foldl (λ s a, dispatch a s) st actions.



(** The active profile, if any, is the identifier of a stored profile. *)
Definition pointerResolves (st : AppState) : Prop :=
  ∀ id, currentUserId st = Some id → id ∈ map user_id (users st).

(** A profile as [handleSaveProfile] stores it: trimmed texts, and optional
    texts that are absent rather than empty. *)
Definition normalizedProfile (u : User) : Prop :=
  u = {| user_id := user_id u;
         user_name := trim (user_name u);
         user_email := trim (user_email u);
         user_phone := orUndefined (trim (orEmpty (user_phone u)));
         user_address := orUndefined (trim (orEmpty (user_address u)));
         user_city := orUndefined (trim (orEmpty (user_city u)));
         user_postalCode := orUndefined (trim (orEmpty (user_postalCode u))) |}.

(** The characters of a slug. *)
Definition isSlugOrHyphen (c : ascii) : bool := isSlugChar c || Ascii.eqb c "-".

Fixpoint allChars (p : ascii → bool) (s : string) : bool :=
  match s with
  | EmptyString => true
  | String c s' => p c && allChars p s'
  end.

Fixpoint lastChar (s : string) : option ascii :=
  match s with
  | EmptyString => None
  | String c EmptyString => Some c
  | String _ s' => lastChar s'
  end.

Definition isHyphen (c : ascii) : bool := Ascii.eqb c "-".

Definition startsWithHyphen (s : string) : bool :=
  match s with String c _ => isHyphen c | EmptyString => false end.

Definition endsWithHyphen (s : string) : bool :=
  match lastChar s with Some c => isHyphen c | None => false end.

(** No two hyphens in a row. *)
Fixpoint noDoubleHyphen (s : string) : bool :=
  match s with
  | EmptyString => true
  | String c s' => negb (isHyphen c && startsWithHyphen s') && noDoubleHyphen s'
  end.

(** The draft passes the checks of [handleCreateSpice] with the price [q]. *)
Definition validDraft (d : SpiceDraft) (q : Q) : Prop :=
  trim (draft_name d) ≠ "" ∧ toNumber (draft_price d) = Finite q
  ∧ Qle_bool q 0 = false.

(** The documents that a part of the load effect passes over: the slot is
    absent, holds the empty text, or holds a document that fails the test
    of that part. *)
Definition isArray (j : json) : bool :=
  match j with JArray _ => true | _ => false end.

Definition isNonEmptyArray (j : json) : bool :=
  match j with JArray (_ :: _) => true | _ => false end.

Definition passedOver (test : json → bool) (slot : option document) : Prop :=
  slot = None ∨ slot = Some EmptyText
  ∨ ∃ j, slot = Some (Parsed j) ∧ test j = false.

(** Every stored profile is as [handleSaveProfile] stores it. *)
Definition profilesNormalized (l : list User) : Prop := Forall normalizedProfile l.

(** ** Example states

    Stand-ins for the runtime services, and the states on which the
    properties below are exercised. *)

Definition plainFormat (amount : Z) : string := "INR " +:+ pretty amount.
Definition plainEncode (text : string) : string := text.
Definition plainNumber (text : string) : number :=
  if String.eqb text "120" then Finite 120 else NaN.

Definition plainSpice (id name : string) (price : Z) : Spice := {|
  spice_id := id;
  spice_name := name;
  spice_description := "Custom Homelike blend.";
  spice_notes := None;
  spice_price := price;
  spice_unit := "100g";
  spice_heat := Medium;
  spice_origin := None;
  spice_isNew := Some true;
  spice_isSignature := Some false;
  spice_colorClass := "from-amber-500 via-orange-500 to-rose-500";
  spice_imageDataUrl := None
|}.

(** Two products, [p1] at 100 and [p2] at 50. *)
Definition exampleCatalog : list Spice :=
  [plainSpice "p1" "Pepper" 100; plainSpice "p2" "Clove" 50].

(** A filled contact form and the cart [{p1: 2, p2: 1}]. *)
Definition cartState : AppState :=
  handleQuantityChange "p2" (Finite 1)
    (handleQuantityChange "p1" (Finite 2)
       (setOrderNote "Ring the bell"
          (setOrderEmail "asha@example.com"
             (setOrderName "Asha" (setSpices exampleCatalog initialState))))).


(** The same order with street, city and postal code. *)
Definition addressState : AppState :=
  setOrderPostalCode "411001"
    (setOrderCity "Pune" (setOrderAddress "12 MG Road" cartState)).

Definition adminWithEmail (email : string) : AdminConfig := {|
  adminEmail := email;
  brandTagline := brandTagline defaultAdminConfig;
  supportPhone := supportPhone defaultAdminConfig;
  upiId := upiId defaultAdminConfig;
  admin_city := admin_city defaultAdminConfig;
  minimumOrderNote := minimumOrderNote defaultAdminConfig
|}.

(** An admin address of one space, and a proper one. *)
Definition blankAdminState : AppState :=
  setAdminConfig (adminWithEmail " ") cartState.
Definition mailAdminState : AppState :=
  setAdminConfig (adminWithEmail "shop@example.com") cartState.

(** An empty profile store and a form with the email [A@x.com]; the same
    form with the email in lower case and another name. *)
Definition profileState : AppState :=
  setOrderEmail "A@x.com" (setOrderName "Asha" initialState).
Definition secondForm (st : AppState) : AppState :=
  setOrderEmail "a@x.com" (setOrderName "Asha K" st).

(** A profile store that already holds the identifier of clock reading 5. *)
Definition clashProfileState : AppState :=
  setUsers [ {| user_id := "user-5"; user_name := "Bela"; user_email := "b@x.com";
                user_phone := None; user_address := None; user_city := None;
                user_postalCode := None |} ] profileState.

Definition chaiDraft : SpiceDraft := {|
  draft_name := "Chai Mix";
  draft_description := "";
  draft_price := "120";
  draft_unit := "100g";
  draft_heat := Medium;
  draft_origin := "";
  draft_notes := "";
  draft_imageDataUrl := None;
  draft_isSignature := false
|}.

(** The draft over the default catalog, and over a catalog in which the
    slug [chai-mix] is already taken. *)
Definition chaiState : AppState := setNewSpice chaiDraft initialState.


(** A stored profile as the save stores it, and a store that holds it. *)
Definition ashaProfile : User := {|
  user_id := "user-5";
  user_name := "Asha";
  user_email := "A@x.com";
  user_phone := Some "98450 00000";
  user_address := None;
  user_city := Some "Pune";
  user_postalCode := None
|}.

Definition storedProfileState : AppState := setUsers [ashaProfile] initialState.



(** A short run: two products into the cart, one taken out again, a
    profile saved and an order placed. *)
Definition exampleRun : list action :=
  [ ClickPlus 0; ClickPlus 1; ClickMinus 0;
    EditForm (FormName "Asha"); EditForm (FormEmail "asha@example.com");
    SaveProfile 5; RunProfileEffect; SubmitOrder 6 "2023-11-14T22:13:20.000Z" ].


(** * Properties *)

(** ** CartCalculator *)


Lemma updateQuantity_positive spiceId value (m : gmap string Z) :
  cartPositive m → cartPositive (updateQuantity spiceId value m).
Proof.
  unfold cartPositive, updateQuantity. intros Hm.
  destruct (Z.leb_spec (safeQuantity value) 0) as [Hle | Hgt].
  - by apply map_Forall_delete.
  - by apply map_Forall_insert_2.
Qed.

Lemma applyChanges_positive calls (st : AppState) :
  cartPositive (quantities st) → cartPositive (quantities (applyChanges calls st)).
Proof.
  revert st. induction calls as [| call calls IH]; intros st Hst; simpl.
  - exact Hst.
  - apply IH. simpl. by apply updateQuantity_positive.
Qed.

Lemma hasSelectionOf_true (m : gmap string Z) :
  hasSelectionOf m = true ↔ ∃ id n, m !! id = Some n ∧ 0 < n.
Proof.
  unfold hasSelectionOf. rewrite existsb_exists. split.
  - intros (n & Hin & Hn). apply in_map_iff in Hin as ([id n'] & Heq & Hin).
    simpl in Heq. subst n'. exists id, n. split; [| lia].
    apply elem_of_map_to_list. by apply list_elem_of_In.
  - intros (id & n & Hl & Hn). exists n. split; [| apply Z.ltb_lt; lia].
    apply in_map_iff. exists (id, n). split; [done |].
    apply list_elem_of_In. by apply elem_of_map_to_list.
Qed.

Lemma hasSelectionOf_nonempty (m : gmap string Z) :
  cartPositive m → (hasSelectionOf m = true ↔ m ≠ ∅).
Proof.
  intros Hpos. rewrite hasSelectionOf_true. split.
  - intros (id & n & Hl & _) ->. by rewrite lookup_empty in Hl.
  - intros Hne. destruct (map_choose m Hne) as (id & n & Hl).
    exists id, n. split; [done |]. exact (Hpos id n Hl).
Qed.

(** C3. Starting from the empty mapping of a new session, no sequence of
    quantity changes leaves an entry of value 0 or less in the cart mapping
    (a quantity of 0 removes the key), and [hasSelection] is true exactly
    when the mapping has an entry. *)
Theorem cart_entries_positive (calls : list (string * number)) :
  (∀ id n, quantities (applyChanges calls initialState) !! id = Some n → 0 < n)
  ∧ (hasSelection (applyChanges calls initialState) = true
     ↔ quantities (applyChanges calls initialState) ≠ ∅).
Proof.
  assert (cartPositive (quantities (applyChanges calls initialState))) as Hpos.
  { apply applyChanges_positive. apply map_Forall_empty. }
  split.
  - intros id n Hl. exact (Hpos id n Hl).
  - by apply hasSelectionOf_nonempty.
Qed.







(** The compiled-in catalog has unique identifiers. *)
Lemma defaultSpices_unique : catalogUnique defaultSpices.
Proof. unfold catalogUnique. compute_done. Qed.



(** ** OrderComposer *)

Lemma truthy_false (s : string) : truthy s = false ↔ s = "".
Proof. destruct s; simpl; split; congruence. Qed.

Lemma truthy_true (s : string) : truthy s = true ↔ s ≠ "".
Proof. destruct s; simpl; split; congruence. Qed.

(** The contact check of [handlePlaceOrder] and [handleSaveProfile]. *)
Lemma contact_blank (name email : string) :
  negb (truthy (trim name)) || negb (truthy (trim email)) = true
  ↔ trim name = "" ∨ trim email = "".
Proof.
  rewrite orb_true_iff, !negb_true_iff, !truthy_false. reflexivity.
Qed.

Lemma contact_present (name email : string) :
  negb (truthy (trim name)) || negb (truthy (trim email)) = false
  ↔ trim name ≠ "" ∧ trim email ≠ "".
Proof.
  rewrite orb_false_iff, !negb_false_iff, !truthy_true. reflexivity.
Qed.

Lemma selectedOf_In catalog (q : gmap string Z) (x : Spice * Z) :
  In x (selectedOf catalog q)
  ↔ In x.1 catalog ∧ x.2 = quantityOf q (spice_id x.1) ∧ 0 < x.2.
Proof.
  unfold selectedOf. rewrite filter_In, in_map_iff, Z.ltb_lt. split.
  - intros [(s & <- & Hin) Hpos]. simpl in *. done.
  - intros (Hin & Heq & Hpos). split; [| done].
    exists x.1. split; [| done]. destruct x as [s n]. simpl in *. by subst n.
Qed.

Lemma selectedOf_ids catalog (q : gmap string Z) :
  map item_spiceId (map makeItem (selectedOf catalog q))
  = List.filter (λ id, 0 <? quantityOf q id) (map spice_id catalog).
Proof.
  unfold selectedOf. induction catalog as [| s catalog IH]; simpl; [done |].
  destruct (0 <? quantityOf q (spice_id s)); simpl; by rewrite IH.
Qed.

Lemma quantityOf_positive (q : gmap string Z) id :
  0 < quantityOf q id → q !! id = Some (quantityOf q id).
Proof.
  unfold quantityOf. destruct (q !! id); simpl; [done | lia].
Qed.

Lemma selectedOf_nil catalog (q : gmap string Z) :
  selectedOf catalog q = [] ↔ ∀ s, s ∈ catalog → quantityOf q (spice_id s) ≤ 0.
Proof.
  split.
  - intros Hnil s Hs.
    destruct (Z.le_gt_cases (quantityOf q (spice_id s)) 0) as [| Hpos]; [done |].
    assert (In (s, quantityOf q (spice_id s)) (selectedOf catalog q)) as Hin.
    { apply selectedOf_In. simpl. by rewrite <- list_elem_of_In. }
    rewrite Hnil in Hin. destruct Hin.
  - intros Hall. destruct (selectedOf catalog q) as [| x l] eqn:Hsel; [done |].
    assert (In x (selectedOf catalog q)) as Hin by (rewrite Hsel; by left).
    apply selectedOf_In in Hin as (Hin & Heq & Hpos).
    apply list_elem_of_In, Hall in Hin. lia.
Qed.

(** The three exits of [handlePlaceOrder]. *)
Lemma handlePlaceOrder_missing now iso st :
  trim (orderName st) = "" ∨ trim (orderEmail st) = "" →
  handlePlaceOrder now iso st
  = setOrderError (Some missingContactMessage)
      (setOrderStatus None (setOrderError None st)).
Proof.
  intros H. apply contact_blank in H. unfold handlePlaceOrder. simpl.
  by rewrite H.
Qed.

Lemma handlePlaceOrder_empty now iso st :
  trim (orderName st) ≠ "" → trim (orderEmail st) ≠ "" →
  selectedOf (spices st) (quantities st) = [] →
  handlePlaceOrder now iso st
  = setOrderError (Some emptyCartMessage)
      (setOrderStatus None (setOrderError None st)).
Proof.
  intros Hn He Hsel. unfold handlePlaceOrder. simpl.
  rewrite (proj2 (contact_present _ _) (conj Hn He)). by rewrite Hsel.
Qed.

Lemma handlePlaceOrder_accepted now iso st :
  trim (orderName st) ≠ "" → trim (orderEmail st) ≠ "" →
  selectedOf (spices st) (quantities st) ≠ [] →
  handlePlaceOrder now iso st
  = acceptedState st
      (buildOrder now iso st (map makeItem (selectedOf (spices st) (quantities st)))).
Proof.
  intros Hn He Hsel. unfold handlePlaceOrder, acceptedState. simpl.
  rewrite (proj2 (contact_present _ _) (conj Hn He)).
  destruct (selectedOf (spices st) (quantities st)) as [| x l]; [done |].
  reflexivity.
Qed.

(** A submission is accepted exactly when it leaves no error message. *)
Lemma handlePlaceOrder_no_error now iso st :
  orderError (handlePlaceOrder now iso st) = None →
  trim (orderName st) ≠ "" ∧ trim (orderEmail st) ≠ ""
  ∧ selectedOf (spices st) (quantities st) ≠ [].
Proof.
  intros Hok.
  destruct (decide (trim (orderName st) = "")) as [Hn | Hn].
  { rewrite handlePlaceOrder_missing in Hok by auto. discriminate. }
  destruct (decide (trim (orderEmail st) = "")) as [He | He].
  { rewrite handlePlaceOrder_missing in Hok by auto. discriminate. }
  destruct (selectedOf (spices st) (quantities st)) as [| x l] eqn:Hsel.
  { rewrite handlePlaceOrder_empty in Hok by auto. discriminate. }
  done.
Qed.




(** C10. An accepted submission clears the cart and the order note and
    leaves the contact fields, the payment method, the active profile, the
    profile store, the catalog and the admin configuration as they were. *)
Theorem accepted_order_frame (now : Z) (iso : string) (st : AppState) :
  orderError (handlePlaceOrder now iso st) = None →
  quantities (handlePlaceOrder now iso st) = ∅
  ∧ orderNote (handlePlaceOrder now iso st) = ""
  ∧ orderName (handlePlaceOrder now iso st) = orderName st
  ∧ orderEmail (handlePlaceOrder now iso st) = orderEmail st
  ∧ orderPhone (handlePlaceOrder now iso st) = orderPhone st
  ∧ orderAddress (handlePlaceOrder now iso st) = orderAddress st
  ∧ orderCity (handlePlaceOrder now iso st) = orderCity st
  ∧ orderPostalCode (handlePlaceOrder now iso st) = orderPostalCode st
  ∧ paymentMethod (handlePlaceOrder now iso st) = paymentMethod st
  ∧ currentUserId (handlePlaceOrder now iso st) = currentUserId st
  ∧ users (handlePlaceOrder now iso st) = users st
  ∧ spices (handlePlaceOrder now iso st) = spices st
  ∧ adminConfig (handlePlaceOrder now iso st) = adminConfig st.
Proof.
  intros Hok. apply handlePlaceOrder_no_error in Hok as (Hn & He & Hsel).
  rewrite handlePlaceOrder_accepted by done. unfold acceptedState.
  destruct (truthy _); done.
Qed.

(** ** ReceiptFormatter *)

(** C9, as the code has it.  For an accepted order the hand-off depends only
    on whether the configured admin address is non-empty after trimming:
    if so, the browser is sent to a mail address made of the trimmed admin
    address as recipient, a subject that holds the order identifier and the
    joined receipt lines as body, and the status reports a drafted order;
    if not, no hand-off is made and the status reports a locally stored
    order. *)
Theorem handoff_decision (now : Z) (iso : string) (st : AppState) :
  orderError (handlePlaceOrder now iso st) = None →
  ∃ order,
    orders (handlePlaceOrder now iso st) = orders st ++ [order]
    ∧ order_id order = newOrderId now
    ∧ (trim (adminEmail (adminConfig st)) ≠ "" →
       locationHref (handlePlaceOrder now iso st)
       = Some ("mailto:" +:+ encodeURIComponent (trim (adminEmail (adminConfig st)))
               +:+ "?subject="
               +:+ encodeURIComponent ("New Homelike order " +:+ order_id order)
               +:+ "&body="
               +:+ encodeURIComponent (join newline (bodyLinesOf order)))
       ∧ orderStatus (handlePlaceOrder now iso st) = Some draftedMessage)
    ∧ (trim (adminEmail (adminConfig st)) = "" →
       locationHref (handlePlaceOrder now iso st) = locationHref st
       ∧ orderStatus (handlePlaceOrder now iso st) = Some storedLocallyMessage).
Proof.
  intros Hok. apply handlePlaceOrder_no_error in Hok as (Hn & He & Hsel).
  rewrite handlePlaceOrder_accepted by done. unfold acceptedState.
  eexists. split; [by destruct (truthy _) |]. split; [done |]. split.
  - intros Hr. apply truthy_true in Hr. rewrite Hr. done.
  - intros Hr. apply truthy_false in Hr. rewrite Hr. done.
Qed.

(** What [trim] returns is empty or starts with a character that is not
    white space, and has no white space at its end. *)
Lemma trimStart_shape (s : string) :
  trimStart s = "" ∨ ∃ a r, trimStart s = String a r ∧ isWhiteSpace a = false.
Proof.
  induction s as [| c s IH]; simpl; [by left |].
  destruct (isWhiteSpace c) eqn:Hc; [exact IH |]. right. by exists c, s.
Qed.

Lemma trimEnd_idem (s : string) : trimEnd (trimEnd s) = trimEnd s.
Proof.
  induction s as [| c s IH]; simpl; [done |].
  destruct (trimEnd s) as [| d t] eqn:Ht.
  - destruct (isWhiteSpace c) eqn:Hc; simpl; [done |]. by rewrite Hc.
  - simpl in *. by rewrite IH.
Qed.

Lemma trim_shape (s : string) :
  trim s = "" ∨ ∃ a r, trim s = String a r ∧ isWhiteSpace a = false.
Proof.
  unfold trim. destruct (trimStart_shape s) as [-> | (a & r & -> & Ha)]; [by left |].
  right. simpl. destruct (trimEnd r) as [| d t]; rewrite ?Ha; eauto.
Qed.

Lemma trimEnd_trim (s : string) : trimEnd (trim s) = trim s.
Proof. apply trimEnd_idem. Qed.

Lemma trimEnd_app (s t : string) :
  trimEnd t ≠ "" → trimEnd (s +:+ t) = s +:+ trimEnd t.
Proof.
  intros Ht. induction s as [| c s IH]; [done |].
  change (String c s +:+ t) with (String c (s +:+ t)).
  change (String c s +:+ trimEnd t) with (String c (s +:+ trimEnd t)).
  simpl. rewrite IH. destruct (s +:+ trimEnd t) eqn:Heq; [| done].
  destruct s; [done | discriminate].
Qed.

Lemma trimEnd_app_space (s : string) : trimEnd (s +:+ " ") = trimEnd s.
Proof.
  induction s as [| c s IH]; [done |].
  change (String c s +:+ " ") with (String c (s +:+ " ")).
  simpl. by rewrite IH.
Qed.

(** The city and postal code pair of the code, for trimmed parts. *)
Lemma trim_city_postal (x y : string) :
  trim (trim x +:+ " " +:+ trim y) = cityPostalOf (trim x) (trim y).
Proof.
  unfold cityPostalOf.
  pose proof (trimEnd_trim x) as Hex. pose proof (trimEnd_trim y) as Hey.
  destruct (trim_shape x) as [Hx | (a & r & Hx & Ha)];
    destruct (trim_shape y) as [Hy | (b & t & Hy & Hb)];
    rewrite Hx in *; rewrite Hy in *; simpl.
  - reflexivity.
  - unfold trim. simpl. rewrite Hb. exact Hey.
  - unfold trim. simpl. rewrite Ha.
    change (String a (r +:+ " " +:+ "")) with (String a r +:+ " ").
    rewrite trimEnd_app_space. exact Hex.
  - assert (trimEnd (String " " (String b t)) = String " " (String b t)) as Hsp.
    { simpl. simpl in Hey. by rewrite Hey. }
    unfold trim. simpl trimStart. rewrite Ha.
    change (String a (r +:+ " " +:+ String b t))
      with (String a r +:+ String " " (String b t)).
    rewrite trimEnd_app by (rewrite Hsp; discriminate).
    by rewrite Hsp.
Qed.

Lemma orEmpty_orUndefined (s : string) : orEmpty (orUndefined s) = s.
Proof. by destruct s. Qed.

Lemma truthyOpt_orUndefined (s : string) : truthyOpt (orUndefined s) = truthy s.
Proof. by destruct s. Qed.

Lemma isAddressLine_items (items : list OrderItem) :
  isAddressLine (lineItemsText items) = false.
Proof.
  destruct items as [| i [| j r]]; reflexivity.
Qed.

Lemma addressLineOf_filter (order : Order) :
  List.filter isAddressLine (addressLineOf order) = addressLineOf order.
Proof.
  unfold addressLineOf. by destruct (addressLinesOf order).
Qed.

(** Of the lines of a receipt, only the address line is an address line. *)
Lemma bodyLinesOf_address (order : Order) :
  List.filter isAddressLine (bodyLinesOf order) = addressLineOf order.
Proof.
  unfold bodyLinesOf. rewrite !List.filter_app. simpl List.filter at 1.
  rewrite addressLineOf_filter.
  replace (List.filter isAddressLine
             (if truthyOpt (customerPhone order)
              then ["Phone: " +:+ orEmpty (customerPhone order)] else []))
    with (@nil string) by (by destruct (truthyOpt _)).
  replace (List.filter isAddressLine
             (if truthyOpt (order_note order)
              then [""; "Customer note: " +:+ orEmpty (order_note order)] else []))
    with (@nil string) by (by destruct (truthyOpt _)).
  simpl. rewrite isAddressLine_items. simpl. by rewrite app_nil_r.
Qed.

(** C8, as the code has it.  The receipt of an accepted order has at most
    one address line.  The line joins, with a comma and a space, the street
    (when it is not empty) and the pair of city and postal code (when one of
    them is not empty), and within the pair city and postal code are
    separated by a single space; there is no address line when street, city
    and postal code are all empty. *)
Theorem receipt_address_line (now : Z) (iso : string) (st : AppState) :
  orderError (handlePlaceOrder now iso st) = None →
  ∃ order,
    orders (handlePlaceOrder now iso st) = orders st ++ [order]
    ∧ List.filter isAddressLine (bodyLinesOf order)
      = match addressPartsOf (trim (orderAddress st)) (trim (orderCity st))
                (trim (orderPostalCode st)) with
        | [] => []
        | parts => ["Address: " +:+ join ", " parts]
        end
    ∧ (addressPartsOf (trim (orderAddress st)) (trim (orderCity st))
         (trim (orderPostalCode st)) = []
       ↔ trim (orderAddress st) = "" ∧ trim (orderCity st) = ""
         ∧ trim (orderPostalCode st) = "").
Proof.
  intros Hok. apply handlePlaceOrder_no_error in Hok as (Hn & He & Hsel).
  rewrite handlePlaceOrder_accepted by done.
  eexists. split; [| split].
  - unfold acceptedState. by destruct (truthy _).
  - rewrite bodyLinesOf_address. unfold addressLineOf, addressLinesOf, addressPartsOf.
    simpl. rewrite !truthyOpt_orUndefined, !orEmpty_orUndefined, trim_city_postal.
    reflexivity.
  - unfold addressPartsOf. rewrite <- !truthy_false.
    destruct (truthy (trim (orderAddress st))), (truthy (trim (orderCity st))),
      (truthy (trim (orderPostalCode st))); simpl; split; intros H;
      try discriminate; try done; destruct H as (? & ? & ?); discriminate.
Qed.

(** ** ProfileStore *)

Lemma profileMatches_key (email : string) (u : User) :
  profileMatches email u = true ↔ profileKey u = toLowerCase (trim email).
Proof. unfold profileMatches, profileKey. apply String.eqb_eq. Qed.

Lemma find_hd_filter {A} (f : A → bool) (l : list A) :
  List.find f l = head (List.filter f l).
Proof.
  induction l as [| x l IH]; simpl; [done |]. by destruct (f x).
Qed.

Lemma filter_none_key (email : string) (l : list User) :
  toLowerCase (trim email) ∉ map profileKey l → profilesFor email l = [].
Proof.
  unfold profilesFor. induction l as [| u l IH]; simpl; [done |].
  intros Hnin. apply not_elem_of_cons in Hnin as [Hne Hnin].
  destruct (profileMatches email u) eqn:Hm.
  - apply profileMatches_key in Hm. congruence.
  - by apply IH.
Qed.

(** With one profile per key, the profiles stored for an email are the one
    profile that has its key. *)
Lemma filter_unique_key (email : string) (l : list User) (x : User) :
  NoDup (map profileKey l) → x ∈ l → profileKey x = toLowerCase (trim email) →
  profilesFor email l = [x].
Proof.
  unfold profilesFor. induction l as [| u l IH]; simpl; intros Hnd Hin Hk.
  - by apply elem_of_nil in Hin.
  - apply NoDup_cons in Hnd as [Hnin Hnd].
    apply elem_of_cons in Hin as [-> | Hin].
    + rewrite (proj2 (profileMatches_key email u) Hk).
      f_equal. apply filter_none_key. by rewrite <- Hk.
    + destruct (profileMatches email u) eqn:Hm.
      * apply profileMatches_key in Hm. exfalso. apply Hnin.
        rewrite Hm, <- Hk. apply list_elem_of_fmap. by exists x.
      * by apply IH.
Qed.

Lemma NoDup_fmap_eq {A B} (g : A → B) (l : list A) (x y : A) :
  NoDup (map g l) → x ∈ l → y ∈ l → g x = g y → x = y.
Proof.
  induction l as [| z l IH]; simpl; intros Hnd Hx Hy Hg.
  - by apply elem_of_nil in Hx.
  - apply NoDup_cons in Hnd as [Hnin Hnd].
    apply elem_of_cons in Hx as [-> | Hx]; apply elem_of_cons in Hy as [-> | Hy].
    + done.
    + exfalso. apply Hnin. rewrite Hg. apply list_elem_of_fmap. by exists y.
    + exfalso. apply Hnin. rewrite <- Hg. apply list_elem_of_fmap. by exists x.
    + by apply IH.
Qed.

Lemma replaceById_keys (e base : User) (l : list User) :
  NoDup (map user_id l) → e ∈ l →
  user_id base = user_id e → profileKey base = profileKey e →
  map profileKey (replaceById e base l) = map profileKey l
  ∧ map user_id (replaceById e base l) = map user_id l
  ∧ base ∈ replaceById e base l.
Proof.
  intros Hnd He Hid Hkey. unfold replaceById. split; [| split].
  - rewrite map_map. apply map_ext_in. intros u Hu. apply list_elem_of_In in Hu.
    destruct (String.eqb_spec (user_id u) (user_id e)) as [Heq | _]; [| done].
    by rewrite (NoDup_fmap_eq user_id l u e Hnd Hu He Heq).
  - rewrite map_map. apply map_ext. intros u.
    destruct (String.eqb_spec (user_id u) (user_id e)) as [Heq | _]; congruence.
  - apply list_elem_of_fmap. exists e. by rewrite String.eqb_refl.
Qed.

(** The profile store after [handleSaveProfile]. *)
Lemma handleSaveProfile_users now st :
  trim (orderName st) ≠ "" → trim (orderEmail st) ≠ "" →
  users (handleSaveProfile now st)
  = match List.find (profileMatches (orderEmail st)) (users st) with
    | Some e => replaceById e (profileFromForm (user_id e) st) (users st)
    | None => users st ++ [profileFromForm (newUserId now) st]
    end
  ∧ currentUserId (handleSaveProfile now st)
    = Some match List.find (profileMatches (orderEmail st)) (users st) with
           | Some e => user_id e
           | None => newUserId now
           end.
Proof.
  intros Hn He. unfold handleSaveProfile. simpl.
  rewrite (proj2 (contact_present _ _) (conj Hn He)).
  by destruct (List.find _ _).
Qed.

Lemma profileFromForm_key id st :
  profileKey (profileFromForm id st) = toLowerCase (trim (orderEmail st)).
Proof. reflexivity. Qed.

(** One upsert: the store keeps one profile per key, and the one stored for
    the email of the form carries the fields of the form under the
    identifier of the matching profile, or under the new identifier. *)
Lemma upsert_once now st :
  trim (orderName st) ≠ "" → trim (orderEmail st) ≠ "" →
  profilesUnique (users st) →
  (List.find (profileMatches (orderEmail st)) (users st) = None →
   newUserId now ∉ map user_id (users st)) →
  profilesUnique (users (handleSaveProfile now st))
  ∧ profilesFor (orderEmail st) (users (handleSaveProfile now st))
    = [profileFromForm
         match List.find (profileMatches (orderEmail st)) (users st) with
         | Some e => user_id e
         | None => newUserId now
         end st]
  ∧ length (users (handleSaveProfile now st))
    = match List.find (profileMatches (orderEmail st)) (users st) with
      | Some _ => length (users st)
      | None => S (length (users st))
      end.
Proof.
  intros Hn He [Hkeys Hids] Hfresh.
  destruct (handleSaveProfile_users now st Hn He) as [-> _].
  destruct (List.find _ _) as [e |] eqn:Hfind.
  - apply find_some in Hfind as [Hin Hm].
    apply list_elem_of_In in Hin. apply profileMatches_key in Hm.
    destruct (replaceById_keys e (profileFromForm (user_id e) st) (users st))
      as (Hk & Hi & Hbase); try done.
    split; [| split].
    + unfold profilesUnique. by rewrite Hk, Hi.
    + apply filter_unique_key; [by rewrite Hk | done | done].
    + unfold replaceById. by rewrite length_map.
  - assert (toLowerCase (trim (orderEmail st)) ∉ map profileKey (users st)) as Hnin.
    { intros Hin. apply list_elem_of_fmap in Hin as (u & Hk & Hu).
      apply list_elem_of_In in Hu.
      pose proof (find_none _ _ Hfind u Hu) as Hm.
      symmetry in Hk. apply profileMatches_key in Hk. congruence. }
    split; [| split].
    + unfold profilesUnique. rewrite !map_app. simpl. split.
      * apply NoDup_app. split; [done |]. split; [| apply NoDup_singleton].
        intros k Hk Hk'. apply list_elem_of_singleton in Hk'. by subst k.
      * apply NoDup_app. split; [done |]. split; [| apply NoDup_singleton].
        intros k Hk Hk'. apply list_elem_of_singleton in Hk'. subst k.
        by apply Hfresh.
    + unfold profilesFor. rewrite List.filter_app. fold (profilesFor (orderEmail st) (users st)).
      rewrite filter_none_key by done. simpl.
      by rewrite (proj2 (profileMatches_key _ _) (profileFromForm_key _ st)).
    + rewrite length_app. simpl. lia.
Qed.

Lemma profileMatches_same_key (e1 e2 : string) (u : User) :
  toLowerCase (trim e1) = toLowerCase (trim e2) →
  profileMatches e1 u = profileMatches e2 u.
Proof. unfold profileMatches. by intros ->. Qed.

(** C5, as the code has it.  For a profile store that holds at most one
    profile per normalized email under unique identifiers, two upserts whose
    emails differ at most in case (or not at all) leave exactly one profile
    for that email; it carries the fields of the second upsert and the
    identifier of the profile that matched at the first upsert, or, when
    none matched, the identifier derived from the clock at the first
    upsert, under which the first upsert appended the profile.  The
    identifier derived from the clock is taken not to be in use. *)
Theorem upsert_idempotent (t1 t2 : Z) (st sta : AppState) :
  profilesUnique (users st) →
  trim (orderName st) ≠ "" → trim (orderEmail st) ≠ "" →
  trim (orderName sta) ≠ "" → trim (orderEmail sta) ≠ "" →
  users sta = users (handleSaveProfile t1 st) →
  toLowerCase (trim (orderEmail sta)) = toLowerCase (trim (orderEmail st)) →
  (List.find (profileMatches (orderEmail st)) (users st) = None →
   newUserId t1 ∉ map user_id (users st)) →
  ∃ id,
    id = match List.find (profileMatches (orderEmail st)) (users st) with
         | Some e => user_id e
         | None => newUserId t1
         end
    ∧ profilesFor (orderEmail sta) (users (handleSaveProfile t2 sta))
      = [profileFromForm id sta]
    ∧ currentUserId (handleSaveProfile t2 sta) = Some id
    ∧ length (users (handleSaveProfile t2 sta))
      = length (users (handleSaveProfile t1 st))
    ∧ (List.find (profileMatches (orderEmail st)) (users st) = None →
       users (handleSaveProfile t1 st)
       = users st ++ [profileFromForm (newUserId t1) st])
    ∧ (is_Some (List.find (profileMatches (orderEmail st)) (users st)) →
       length (users (handleSaveProfile t1 st)) = length (users st))
    ∧ profilesUnique (users (handleSaveProfile t2 sta)).
Proof.
  intros Hwf Hn He Hna Hea Husers Hkey Hfresh.
  destruct (upsert_once t1 st Hn He Hwf Hfresh) as (Hwf1 & Hone & Hlen1).
  set (id := match List.find (profileMatches (orderEmail st)) (users st) with
             | Some e => user_id e
             | None => newUserId t1
             end) in *.
  assert (List.find (profileMatches (orderEmail sta)) (users sta)
          = Some (profileFromForm id st)) as Hfind.
  { rewrite find_hd_filter, Husers.
    rewrite (filter_ext _ (profileMatches (orderEmail st)))
      by (intros u; by apply profileMatches_same_key).
    fold (profilesFor (orderEmail st) (users (handleSaveProfile t1 st))).
    by rewrite Hone. }
  rewrite <- Husers in Hwf1.
  destruct (upsert_once t2 sta Hna Hea Hwf1) as (Hwf2 & Htwo & Hlen2).
  { rewrite Hfind. discriminate. }
  rewrite Hfind in Htwo, Hlen2. simpl in Htwo.
  exists id. split; [done |]. split; [done |]. split.
  { destruct (handleSaveProfile_users t2 sta Hna Hea) as [_ ->]. by rewrite Hfind. }
  split; [by rewrite Hlen2, Husers |]. split.
  { intros Hnone. destruct (handleSaveProfile_users t1 st Hn He) as [-> _].
    by rewrite Hnone. }
  split; [| done].
  intros [e Hsome]. rewrite Hlen1. by rewrite Hsome.
Qed.

(** ** CatalogStore *)


(** The catalog after a creation whose draft has a name and a valid price. *)
Lemma handleCreateSpice_spices nowPlaceholder nowSuffix st (price : Q) :
  trim (draft_name (newSpice st)) ≠ "" →
  toNumber (draft_price (newSpice st)) = Finite price →
  Qle_bool price 0 = false →
  spices (handleCreateSpice nowPlaceholder nowSuffix st)
  = spices st
    ++ [createdSpice
          (newSpiceId nowPlaceholder nowSuffix (spices st) (draft_name (newSpice st)))
          (round price) (newSpice st)].
Proof.
  intros Hn Hp Hpos. unfold handleCreateSpice. simpl.
  rewrite (proj2 (truthy_true _) Hn). simpl. by rewrite Hp, Hpos.
Qed.





(** ** PersistenceGateway *)


















(** * Further properties of the handlers *)

(** ** The cart controls *)











(** ** Order composition *)

Lemma acceptedState_orders st order :
  orders (acceptedState st order) = orders st ++ [order].
Proof. unfold acceptedState. by destruct (truthy _). Qed.



Lemma hasSelectionOf_false_selected catalog (q : gmap string Z) :
  hasSelectionOf q = false → selectedOf catalog q = [].
Proof.
  intros Hno. apply selectedOf_nil. intros s _.
  destruct (Z.le_gt_cases (quantityOf q (spice_id s)) 0) as [| Hpos]; [done |].
  assert (hasSelectionOf q = true) as Hyes; [| congruence].
  apply hasSelectionOf_true.
  exists (spice_id s), (quantityOf q (spice_id s)).
  split; [apply quantityOf_positive |]; lia.
Qed.

(** X6. When [hasSelection] is false (the submit button is disabled), a
    submission is rejected: it appends no order and leaves the cart and the
    order note as they are. *)
Theorem no_selection_no_order (now : Z) (iso : string) (st : AppState) :
  hasSelection st = false →
  orderError (handlePlaceOrder now iso st) ≠ None
  ∧ orders (handlePlaceOrder now iso st) = orders st
  ∧ quantities (handlePlaceOrder now iso st) = quantities st
  ∧ orderNote (handlePlaceOrder now iso st) = orderNote st
  ∧ locationHref (handlePlaceOrder now iso st) = locationHref st.
Proof.
  intros Hno. apply (hasSelectionOf_false_selected (spices st)) in Hno.
  destruct (decide (trim (orderName st) = "")) as [Hn | Hn].
  { rewrite handlePlaceOrder_missing by auto. done. }
  destruct (decide (trim (orderEmail st) = "")) as [He | He].
  { rewrite handlePlaceOrder_missing by auto. done. }
  rewrite handlePlaceOrder_empty by done. done.
Qed.

Lemma orUndefined_None (s : string) : orUndefined s = None ↔ s = "".
Proof. unfold orUndefined. destruct s; simpl; split; intros; congruence. Qed.

Lemma orUndefined_Some (s v : string) : orUndefined s = Some v → v = s ∧ v ≠ "".
Proof. unfold orUndefined. destruct s; simpl; [discriminate |]. intros [= <-]. done. Qed.

(** X7. An accepted order carries the trimmed contact name and email, which
    are not empty; each optional contact field and the note are absent
    exactly when the form field is blank, and otherwise hold the trimmed,
    non-empty text; the order is linked to the active profile, if any, and
    is identified by the clock reading. *)
Theorem accepted_order_contact (now : Z) (iso : string) (st : AppState) :
  orderError (handlePlaceOrder now iso st) = None →
  ∃ order,
    orders (handlePlaceOrder now iso st) = orders st ++ [order]
    ∧ order_id order = "HL-" +:+ pretty now
    ∧ createdAt order = iso
    ∧ customerName order = trim (orderName st) ∧ customerName order ≠ ""
    ∧ customerEmail order = trim (orderEmail st) ∧ customerEmail order ≠ ""
    ∧ (customerPhone order = None ↔ trim (orderPhone st) = "")
    ∧ (customerAddress order = None ↔ trim (orderAddress st) = "")
    ∧ (customerCity order = None ↔ trim (orderCity st) = "")
    ∧ (customerPostalCode order = None ↔ trim (orderPostalCode st) = "")
    ∧ (order_note order = None ↔ trim (orderNote st) = "")
    ∧ (∀ v, customerPhone order = Some v → v = trim (orderPhone st) ∧ v ≠ "")
    ∧ (∀ v, customerAddress order = Some v → v = trim (orderAddress st) ∧ v ≠ "")
    ∧ (∀ v, customerCity order = Some v → v = trim (orderCity st) ∧ v ≠ "")
    ∧ (∀ v, customerPostalCode order = Some v
            → v = trim (orderPostalCode st) ∧ v ≠ "")
    ∧ (∀ v, order_note order = Some v → v = trim (orderNote st) ∧ v ≠ "")
    ∧ order_paymentMethod order = paymentMethod st
    ∧ order_userId order = currentUserId st.
Proof.
  intros Hok. apply handlePlaceOrder_no_error in Hok as (Hn & He & Hsel).
  rewrite handlePlaceOrder_accepted by done.
  eexists. split; [apply acceptedState_orders |]. simpl.
  repeat match goal with
         | |- _ ∧ _ => split
         | |- _ ↔ _ => apply orUndefined_None
         | |- ∀ v, _ = Some v → _ => intros v Hv; by apply orUndefined_Some in Hv
         end; done.
Qed.

Lemma List_filter_sublist {A} (f : A → bool) (l : list A) :
  sublist (List.filter f l) l.
Proof.
  induction l as [| x l IH]; simpl; [constructor |].
  destruct (f x); by constructor.
Qed.

(** X8. The items of an accepted order come in the order of the catalog,
    whatever the order in which the products were put into the cart: their
    product identifiers are a subsequence of those of the catalog, and no
    item has a quantity of 0 or less. *)
Theorem order_items_in_catalog_order (now : Z) (iso : string) (st : AppState) :
  orderError (handlePlaceOrder now iso st) = None →
  ∃ order,
    orders (handlePlaceOrder now iso st) = orders st ++ [order]
    ∧ sublist (map item_spiceId (order_items order)) (map spice_id (spices st))
    ∧ order_items order ≠ []
    ∧ (∀ item, item ∈ order_items order → 0 < item_quantity item).
Proof.
  intros Hok. apply handlePlaceOrder_no_error in Hok as (Hn & He & Hsel).
  rewrite handlePlaceOrder_accepted by done.
  eexists. split; [apply acceptedState_orders |]. simpl. split; [| split].
  - rewrite selectedOf_ids. apply List_filter_sublist.
  - destruct (selectedOf (spices st) (quantities st)); [done | discriminate].
  - intros item Hitem. apply list_elem_of_fmap in Hitem as (x & -> & Hx).
    apply list_elem_of_In, selectedOf_In in Hx as (_ & _ & Hq). exact Hq.
Qed.

(** ** Profiles *)

Lemma trim_idem (s : string) : trim (trim s) = trim s.
Proof.
  unfold trim at 1.
  destruct (trim_shape s) as [Hs | (a & r & Hs & Ha)].
  - by rewrite Hs.
  - rewrite Hs. simpl trimStart. rewrite Ha, <- Hs. apply trimEnd_trim.
Qed.

Lemma handleSaveProfile_blank now st :
  trim (orderName st) = "" ∨ trim (orderEmail st) = "" →
  handleSaveProfile now st
  = setProfileStatus
      (Some "Add at least name and email before saving as a profile.")
      (setProfileStatus None st).
Proof.
  intros H. apply contact_blank in H. unfold handleSaveProfile. simpl. by rewrite H.
Qed.

Lemma replaceById_ids (e base : User) (l : list User) :
  user_id base = user_id e →
  map user_id (replaceById e base l) = map user_id l.
Proof.
  intros Hid. unfold replaceById. rewrite map_map. apply map_ext. intros u.
  destruct (String.eqb_spec (user_id u) (user_id e)); congruence.
Qed.

(** X9. Saving a profile never removes or moves a profile: the identifiers
    of the store stay where they are, and at most one is added at the end.
    When the identifiers of the store are unique, a profile that does not
    match the email of the form is left exactly as it is. *)
Theorem save_profile_keeps_others (now : Z) (st : AppState) :
  map user_id (users st) `prefix_of` map user_id (users (handleSaveProfile now st))
  ∧ (length (users (handleSaveProfile now st)) ≤ S (length (users st)))%nat
  ∧ (NoDup (map user_id (users st)) →
     ∀ i u, users st !! i = Some u →
            profileMatches (orderEmail st) u = false →
            users (handleSaveProfile now st) !! i = Some u).
Proof.
  destruct (decide (trim (orderName st) = "")) as [Hn | Hn].
  { rewrite handleSaveProfile_blank by auto. simpl. split; [done |]. split; [lia | done]. }
  destruct (decide (trim (orderEmail st) = "")) as [He | He].
  { rewrite handleSaveProfile_blank by auto. simpl. split; [done |]. split; [lia | done]. }
  destruct (handleSaveProfile_users now st Hn He) as [-> _].
  destruct (List.find _ _) as [e |] eqn:Hfind.
  - rewrite replaceById_ids by done. split; [done |]. split.
    { unfold replaceById. rewrite length_map. lia. }
    intros Hnd i u Hi Hm. unfold replaceById. rewrite list_lookup_fmap, Hi. simpl.
    destruct (String.eqb_spec (user_id u) (user_id e)) as [Heq | _]; [| done].
    apply find_some in Hfind as [Hin Hme]. apply list_elem_of_In in Hin.
    assert (u = e) as ->; [| congruence].
    eapply (NoDup_fmap_eq user_id); [exact Hnd | | exact Hin | exact Heq].
    by eapply list_elem_of_lookup_2.
  - rewrite map_app. split; [by apply prefix_app_r |]. split.
    { rewrite length_app. simpl. lia. }
    intros _ i u Hi _. by apply lookup_app_l_Some.
Qed.

Lemma find_replaceById (e base : User) (l : list User) :
  e ∈ l → user_id base = user_id e →
  List.find (λ u, String.eqb (user_id u) (user_id e)) (replaceById e base l)
  = Some base.
Proof.
  intros Hin Hid. induction l as [| u l IH]; [by apply elem_of_nil in Hin |].
  simpl. destruct (String.eqb_spec (user_id u) (user_id e)) as [Heq | Hne].
  - by rewrite Hid, String.eqb_refl.
  - apply elem_of_cons in Hin as [-> | Hin]; [done |].
    destruct (String.eqb_spec (user_id u) (user_id e)); [done |]. by apply IH.
Qed.

Lemma find_fresh_last (base : User) (l : list User) :
  user_id base ∉ map user_id l →
  List.find (λ u, String.eqb (user_id u) (user_id base)) (l ++ [base]) = Some base.
Proof.
  induction l as [| u l IH]; simpl; intros Hnin.
  - by rewrite String.eqb_refl.
  - apply not_elem_of_cons in Hnin as [Hne Hnin].
    destruct (String.eqb_spec (user_id u) (user_id base)); [congruence |].
    by apply IH.
Qed.

(** X10. After a profile is saved, the active profile is the saved one: it
    carries the fields of the form under the identifier of the matching
    profile or the new identifier.  The identifier of a matching profile is
    taken not to be empty, and a new identifier not to be in use. *)
Theorem saved_profile_is_active (now : Z) (st : AppState) :
  trim (orderName st) ≠ "" → trim (orderEmail st) ≠ "" →
  (∀ e, List.find (profileMatches (orderEmail st)) (users st) = Some e →
        user_id e ≠ "") →
  (List.find (profileMatches (orderEmail st)) (users st) = None →
   newUserId now ∉ map user_id (users st)) →
  currentUser (handleSaveProfile now st)
  = Some (profileFromForm
            match List.find (profileMatches (orderEmail st)) (users st) with
            | Some e => user_id e
            | None => newUserId now
            end st).
Proof.
  intros Hn He Hid Hfresh. unfold currentUser.
  destruct (handleSaveProfile_users now st Hn He) as [-> ->].
  destruct (List.find _ _) as [e |] eqn:Hfind.
  - rewrite (proj2 (truthy_true _) (Hid e eq_refl)).
    apply find_some in Hfind as [Hin _]. apply list_elem_of_In in Hin.
    by apply (find_replaceById e (profileFromForm (user_id e) st)).
  - simpl. by apply (find_fresh_last (profileFromForm (newUserId now) st)), Hfresh.
Qed.

Lemma profileFromForm_normalized id st : normalizedProfile (profileFromForm id st).
Proof.
  unfold normalizedProfile, profileFromForm. simpl.
  by rewrite !orEmpty_orUndefined, !trim_idem.
Qed.

Lemma replaceById_self (u : User) (l : list User) :
  NoDup (map user_id l) → u ∈ l → replaceById u u l = l.
Proof.
  intros Hnd Hu. unfold replaceById. rewrite <- (map_id l) at 2.
  apply map_ext_in. intros v Hv. apply list_elem_of_In in Hv.
  destruct (String.eqb_spec (user_id v) (user_id u)) as [Heq | _]; [| done].
  symmetry. by apply (NoDup_fmap_eq user_id l v u).
Qed.

Lemma handleUseProfile_form (u : User) (st : AppState) :
  profileFromForm (user_id u) (handleUseProfile u st)
  = {| user_id := user_id u;
       user_name := trim (user_name u);
       user_email := trim (user_email u);
       user_phone := orUndefined (trim (orEmpty (user_phone u)));
       user_address := orUndefined (trim (orEmpty (user_address u)));
       user_city := orUndefined (trim (orEmpty (user_city u)));
       user_postalCode := orUndefined (trim (orEmpty (user_postalCode u))) |}.
Proof. reflexivity. Qed.

(** X11. Using a stored profile and saving it again changes nothing in the
    store, for a profile as the program stores it (trimmed, with a name and
    an email), in a store with one profile per email and unique
    identifiers. *)
Theorem use_then_save_keeps_store (now : Z) (u : User) (st : AppState) :
  profilesUnique (users st) →
  u ∈ users st →
  normalizedProfile u →
  user_name u ≠ "" → user_email u ≠ "" →
  users (handleSaveProfile now (handleUseProfile u st)) = users st
  ∧ currentUserId (handleSaveProfile now (handleUseProfile u st))
    = Some (user_id u).
Proof.
  intros [Hkeys Hids] Hu Hnorm Hname Hemail.
  assert (trim (user_name u) = user_name u) as Htn
    by (symmetry; exact (f_equal user_name Hnorm)).
  assert (trim (user_email u) = user_email u) as Hte
    by (symmetry; exact (f_equal user_email Hnorm)).
  assert (List.find (profileMatches (orderEmail (handleUseProfile u st)))
            (users (handleUseProfile u st)) = Some u) as Hfind.
  { rewrite find_hd_filter.
    change (users (handleUseProfile u st)) with (users st).
    fold (profilesFor (orderEmail (handleUseProfile u st)) (users st)).
    rewrite (filter_unique_key _ _ u); try done.
    simpl. unfold profileKey. by rewrite Hte. }
  destruct (handleSaveProfile_users now (handleUseProfile u st)) as [-> ->].
  - simpl. by rewrite Htn.
  - simpl. by rewrite Hte.
  - rewrite Hfind, handleUseProfile_form, <- Hnorm.
    split; [| done]. by apply replaceById_self.
Qed.




(** ** Catalog entries *)

Lemma handleCreateSpice_name_missing p s st :
  trim (draft_name (newSpice st)) = "" →
  handleCreateSpice p s st
  = setAdminMessage (Some nameMissingMessage) (setAdminMessage None st).
Proof.
  intros Hn. unfold handleCreateSpice. simpl.
  by rewrite (proj2 (truthy_false _) Hn).
Qed.

Lemma handleCreateSpice_invalid_price p s st :
  trim (draft_name (newSpice st)) ≠ "" →
  (∀ q, toNumber (draft_price (newSpice st)) = Finite q → Qle_bool q 0 = true) →
  handleCreateSpice p s st
  = setAdminMessage (Some invalidPriceMessage) (setAdminMessage None st).
Proof.
  intros Hn Hp. unfold handleCreateSpice. simpl.
  rewrite (proj2 (truthy_true _) Hn). simpl.
  destruct (toNumber (draft_price (newSpice st))) as [q | | |]; try done.
  by rewrite (Hp q eq_refl).
Qed.

Lemma handleCreateSpice_valid p s st q :
  validDraft (newSpice st) q →
  handleCreateSpice p s st
  = setAdminMessage (Some (addedMessage (trim (draft_name (newSpice st)))))
      (setNewSpice emptyDraft
         (setSpices
            (spices st
             ++ [createdSpice (newSpiceId p s (spices st) (draft_name (newSpice st)))
                   (round q) (newSpice st)])
            (setAdminMessage None st))).
Proof.
  intros (Hn & Hp & Hq). unfold handleCreateSpice. simpl.
  rewrite (proj2 (truthy_true _) Hn). simpl. by rewrite Hp, Hq.
Qed.

(** The draft is valid for some price, or one of the two checks fails. *)
Lemma draft_cases (d : SpiceDraft) :
  trim (draft_name d) = ""
  ∨ (trim (draft_name d) ≠ ""
     ∧ ∀ q, toNumber (draft_price d) = Finite q → Qle_bool q 0 = true)
  ∨ ∃ q, validDraft d q.
Proof.
  destruct (decide (trim (draft_name d) = "")) as [Hn | Hn]; [by left |].
  right. destruct (toNumber (draft_price d)) as [q | | |] eqn:Hp.
  - destruct (Qle_bool q 0) eqn:Hq.
    + left. split; [done |]. intros q' [= <-]. done.
    + right. by exists q.
  - left. split; [done |]. intros q' Hq'. discriminate.
  - left. split; [done |]. intros q' Hq'. discriminate.
  - left. split; [done |]. intros q' Hq'. discriminate.
Qed.

(** X14. Creating a spice is refused with the name message exactly when the
    trimmed name is empty and, for a name that is present, with the price
    message exactly when the price text denotes no finite number above 0;
    a refusal leaves the catalog and the draft as they are, and a creation
    appends one product and resets the draft. *)
Theorem create_spice_validation (p s : Z) (st : AppState) :
  (adminMessage (handleCreateSpice p s st) = Some nameMissingMessage
   ↔ trim (draft_name (newSpice st)) = "")
  ∧ (trim (draft_name (newSpice st)) ≠ "" →
     (adminMessage (handleCreateSpice p s st) = Some invalidPriceMessage
      ↔ ∀ q, toNumber (draft_price (newSpice st)) = Finite q → Qle_bool q 0 = true))
  ∧ (adminMessage (handleCreateSpice p s st) = Some nameMissingMessage
     ∨ adminMessage (handleCreateSpice p s st) = Some invalidPriceMessage →
     spices (handleCreateSpice p s st) = spices st
     ∧ newSpice (handleCreateSpice p s st) = newSpice st)
  ∧ (adminMessage (handleCreateSpice p s st) ≠ Some nameMissingMessage →
     adminMessage (handleCreateSpice p s st) ≠ Some invalidPriceMessage →
     ∃ created,
       spices (handleCreateSpice p s st) = spices st ++ [created]
       ∧ newSpice (handleCreateSpice p s st) = emptyDraft).
Proof.
  destruct (draft_cases (newSpice st)) as [Hn | [[Hn Hp] | [q Hv]]].
  - rewrite handleCreateSpice_name_missing by done. simpl.
    split; [done |]. split; [done |]. split; [done |]. intros H. by destruct H.
  - rewrite handleCreateSpice_invalid_price by done. simpl.
    split; [split; [discriminate | done] |]. split; [done |]. split; [done |].
    intros _ H. by destruct H.
  - rewrite (handleCreateSpice_valid p s st q Hv). simpl.
    destruct Hv as (Hn & Hp & Hq).
    split; [split; [discriminate | done] |]. split.
    { intros _. split; [discriminate |]. intros Hall.
      rewrite (Hall q Hp) in Hq. discriminate. }
    split; [intros [H | H]; discriminate |].
    intros _ _. by eexists.
Qed.

Lemma round_bounds (q : Q) :
  (inject_Z (round q) <= q + (1 # 2))%Q ∧ (q + (1 # 2) < inject_Z (round q + 1))%Q.
Proof. unfold round. split; [apply Qfloor_le | apply Qlt_floor]. Qed.

(** X15. The price of a created product is the price of the draft rounded to
    the nearest integer, a half rounded up; it is never negative, it is 0
    for a price below one half, and at least 1 from one half on. *)
Theorem created_price_rounded (p s : Z) (st : AppState) (q : Q) :
  validDraft (newSpice st) q →
  ∃ created,
    spices (handleCreateSpice p s st) = spices st ++ [created]
    ∧ (inject_Z (spice_price created) <= q + (1 # 2))%Q
    ∧ (q + (1 # 2) < inject_Z (spice_price created + 1))%Q
    ∧ 0 ≤ spice_price created
    ∧ ((q < 1 # 2)%Q → spice_price created = 0)
    ∧ ((1 # 2 <= q)%Q → 1 ≤ spice_price created).
Proof.
  intros Hv. rewrite (handleCreateSpice_valid p s st q Hv). simpl.
  eexists. split; [reflexivity |]. simpl.
  destruct (round_bounds q) as [Hlo Hhi].
  destruct Hv as (_ & _ & Hq).
  assert (0 < q)%Q as Hpos.
  { apply Qnot_le_lt. intros Hle. apply Qle_bool_iff in Hle. congruence. }
  rewrite inject_Z_plus in Hhi. change (inject_Z 1) with 1%Q in Hhi.
  assert (0 ≤ round q) as Hnn.
  { apply Z.lt_succ_r. rewrite Zlt_Qlt. unfold Z.succ.
    rewrite inject_Z_plus. change (inject_Z 0) with 0%Q.
    change (inject_Z 1) with 1%Q. lra. }
  split; [done |]. split.
  { rewrite inject_Z_plus. change (inject_Z 1) with 1%Q. done. }
  split; [done |]. split.
  - intros Hsmall. apply Z.le_antisymm; [| done].
    apply Z.lt_succ_r. rewrite Zlt_Qlt.
    change (inject_Z (Z.succ 0)) with 1%Q. lra.
  - intros Hbig. apply Z.lt_pred_le. rewrite Zlt_Qlt.
    change (inject_Z (Z.pred 1)) with 0%Q. lra.
Qed.

(** *** The shape of a slug *)

Lemma stripLeadingHyphen_cons (c : ascii) (s : string) :
  stripLeadingHyphen (String c s) = if isHyphen c then s else String c s.
Proof. destruct c as [[] [] [] [] [] [] [] []]; reflexivity. Qed.

Lemma isSlugChar_not_hyphen (c : ascii) : isSlugChar c = true → isHyphen c = false.
Proof. destruct c as [[] [] [] [] [] [] [] []]; vm_compute; congruence. Qed.

Lemma replaceRuns_chars (b : bool) (s : string) :
  allChars isSlugOrHyphen (replaceRuns b s) = true.
Proof.
  revert b. induction s as [| c s IH]; intros b; simpl; [done |].
  destruct (isSlugChar c) eqn:Hc; simpl.
  - unfold isSlugOrHyphen at 1. rewrite Hc. simpl. apply IH.
  - destruct b; simpl; apply IH.
Qed.

(** Within a run that is being replaced, the output does not start with a
    hyphen; in any case it has no two hyphens in a row. *)
Lemma replaceRuns_hyphens (b : bool) (s : string) :
  noDoubleHyphen (replaceRuns b s) = true
  ∧ (b = true → startsWithHyphen (replaceRuns b s) = false).
Proof.
  revert b. induction s as [| c s IH]; intros b; simpl; [done |].
  destruct (isSlugChar c) eqn:Hc.
  - destruct (IH false) as [Hnd _]. simpl.
    rewrite (isSlugChar_not_hyphen c Hc), Hnd. done.
  - destruct (IH true) as [Hnd Hstart]. destruct b; simpl.
    + split; [done |]. intros _. by apply Hstart.
    + rewrite Hstart by done. rewrite Hnd. done.
Qed.

Lemma stripLeadingHyphen_shape (s : string) :
  allChars isSlugOrHyphen s = true → noDoubleHyphen s = true →
  allChars isSlugOrHyphen (stripLeadingHyphen s) = true
  ∧ noDoubleHyphen (stripLeadingHyphen s) = true
  ∧ startsWithHyphen (stripLeadingHyphen s) = false.
Proof.
  destruct s as [| c s]; [done |]. rewrite stripLeadingHyphen_cons. simpl.
  intros [Hc Hall]%andb_true_iff [Hfirst Hnd]%andb_true_iff.
  destruct (isHyphen c) eqn:Hh.
  - simpl in Hfirst. apply negb_true_iff in Hfirst. done.
  - simpl. rewrite Hc, Hall, Hh, Hnd. done.
Qed.

Lemma stripTrailingHyphen_cons (c : ascii) (s : string) :
  stripTrailingHyphen (String c s)
  = match s with
    | EmptyString => if isHyphen c then EmptyString else String c EmptyString
    | String _ _ => String c (stripTrailingHyphen s)
    end.
Proof. by destruct s. Qed.

Lemma stripTrailingHyphen_start (s : string) :
  startsWithHyphen s = false → startsWithHyphen (stripTrailingHyphen s) = false.
Proof.
  destruct s as [| c s]; [done |]. rewrite stripTrailingHyphen_cons. simpl.
  intros Hc. destruct s; [by rewrite Hc | done].
Qed.

Lemma stripTrailingHyphen_empty (s : string) :
  stripTrailingHyphen s = "" → s = "" ∨ ∃ c, s = String c "" ∧ isHyphen c = true.
Proof.
  destruct s as [| c s]; [by left |]. rewrite stripTrailingHyphen_cons.
  destruct s; [| discriminate].
  destruct (isHyphen c) eqn:Hc; [| discriminate]. intros _. right. by exists c.
Qed.

Lemma stripTrailingHyphen_shape (s : string) :
  allChars isSlugOrHyphen s = true → noDoubleHyphen s = true →
  allChars isSlugOrHyphen (stripTrailingHyphen s) = true
  ∧ noDoubleHyphen (stripTrailingHyphen s) = true
  ∧ endsWithHyphen (stripTrailingHyphen s) = false.
Proof.
  induction s as [| c s IH]; [done |].
  rewrite stripTrailingHyphen_cons.
  intros [Hc Hall]%andb_true_iff [Hfirst Hnd]%andb_true_iff.
  destruct s as [| d t].
  - destruct (isHyphen c) eqn:Hh; [done |].
    unfold endsWithHyphen. simpl. rewrite Hc, Hh. done.
  - destruct (IH Hall Hnd) as (IHa & IHn & IHe).
    apply negb_true_iff in Hfirst.
    change (allChars isSlugOrHyphen (String c (stripTrailingHyphen (String d t))))
      with (isSlugOrHyphen c && allChars isSlugOrHyphen (stripTrailingHyphen (String d t))).
    rewrite Hc, IHa. split; [done |].
    destruct (stripTrailingHyphen (String d t)) as [| e r] eqn:Hstrip.
    + apply stripTrailingHyphen_empty in Hstrip as [Hs | (x & [= -> ->] & Hx)];
        [discriminate |].
      simpl in Hfirst. rewrite Hx, andb_true_r in Hfirst.
      unfold endsWithHyphen. simpl. rewrite Hfirst. done.
    + assert (startsWithHyphen (String e r) = startsWithHyphen (String d t)) as Hsame.
      { rewrite stripTrailingHyphen_cons in Hstrip. destruct t.
        - destruct (isHyphen d); [discriminate |]. by injection Hstrip as <- <-.
        - by injection Hstrip as <- <-. }
      split.
      * change (noDoubleHyphen (String c (String e r)))
          with (negb (isHyphen c && startsWithHyphen (String e r))
                && noDoubleHyphen (String e r)).
        by rewrite Hsame, Hfirst, IHn.
      * exact IHe.
Qed.

(** X16. A slug consists of lower-case letters, digits and hyphens only; it
    neither starts nor ends with a hyphen and has no two hyphens in a
    row. *)
Theorem slug_shape (name : string) :
  allChars isSlugOrHyphen (slugOf name) = true
  ∧ startsWithHyphen (slugOf name) = false
  ∧ endsWithHyphen (slugOf name) = false
  ∧ noDoubleHyphen (slugOf name) = true.
Proof.
  unfold slugOf, stripEdgeHyphens.
  pose proof (replaceRuns_chars false (toLowerCase name)) as Hchars.
  destruct (replaceRuns_hyphens false (toLowerCase name)) as [Hnd _].
  destruct (stripLeadingHyphen_shape _ Hchars Hnd) as (Ha & Hn & Hs).
  destruct (stripTrailingHyphen_shape _ Ha Hn) as (Ha' & Hn' & He').
  split; [done |]. split; [| done]. by apply stripTrailingHyphen_start.
Qed.

(** *** Unique identifiers *)

Lemma idTaken_false (catalog : list Spice) (id : string) :
  idTaken catalog id = false ↔ id ∉ map spice_id catalog.
Proof.
  unfold idTaken. induction catalog as [| s catalog IH]; simpl.
  - split; [intros _ Hin; by apply elem_of_nil in Hin | done].
  - rewrite orb_false_iff, IH, not_elem_of_cons.
    destruct (String.eqb_spec (spice_id s) id); split; intros [? ?]; split;
      congruence.
Qed.

Lemma handleCreateSpice_cases p s st :
  handleCreateSpice p s st
  = setAdminMessage (adminMessage (handleCreateSpice p s st)) (setAdminMessage None st)
  ∨ ∃ q, validDraft (newSpice st) q.
Proof.
  destruct (draft_cases (newSpice st)) as [Hn | [[Hn Hp] | [q Hv]]].
  - left. by rewrite handleCreateSpice_name_missing.
  - left. by rewrite handleCreateSpice_invalid_price.
  - right. by exists q.
Qed.

(** X17. Creating a spice keeps the identifiers of the catalog unique as
    long as the identifier it derives is not in the catalog, which is so
    whenever the slug of the name (or the placeholder, for an empty slug)
    is not in the catalog. *)
Theorem create_keeps_catalog_unique (p s : Z) (st : AppState) :
  (catalogUnique (spices st) →
   idTaken (spices st) (newSpiceId p s (spices st) (draft_name (newSpice st))) = false →
   catalogUnique (spices (handleCreateSpice p s st)))
  ∧ (idTaken (spices st)
       (orElse (slugOf (draft_name (newSpice st))) ("spice-" +:+ pretty p)) = false →
     idTaken (spices st) (newSpiceId p s (spices st) (draft_name (newSpice st)))
     = false).
Proof.
  split.
  - intros Hu Hfree.
    destruct (handleCreateSpice_cases p s st) as [-> | [q Hv]]; [done |].
    rewrite (handleCreateSpice_valid p s st q Hv). simpl.
    unfold catalogUnique. rewrite map_app. simpl.
    apply NoDup_app. split; [done |]. split; [| apply NoDup_singleton].
    intros id Hid Hid'. apply list_elem_of_singleton in Hid'. subst id.
    by apply idTaken_false in Hfree.
  - intros Hfree. unfold newSpiceId. by rewrite Hfree.
Qed.

(** *** The image of a draft *)

Lemma applyDraftEdit_image (e : draftEdit) (d : SpiceDraft) :
  draft_imageDataUrl (applyDraftEdit e d) = draft_imageDataUrl d.
Proof. reflexivity. Qed.

Lemma draft_edits_keep_image (edits : list draftEdit) (st0 : AppState) :
  spices (run (map EditDraft edits) st0) = spices st0
  ∧ draft_imageDataUrl (newSpice (run (map EditDraft edits) st0))
    = draft_imageDataUrl (newSpice st0).
Proof.
  revert st0. induction edits as [| e edits IH]; intros st0; simpl; [done |].
  destruct (IH (setNewSpice (applyDraftEdit e (newSpice st0)) st0)) as [-> ->].
  done.
Qed.

(** X18. An image that arrives after the draft was turned into a product
    does not reach that product: the catalog is as the creation left it,
    and the image sits in the new, empty draft, where the edits of the form
    leave it, so that the next product created carries it. *)
Theorem late_image_goes_to_next_draft (p s p' s' : Z) (st : AppState) (q q' : Q)
    (url : string) (edits : list draftEdit) :
  validDraft (newSpice st) q →
  validDraft
    (newSpice (run (map EditDraft edits)
                 (imageLoaded (Some url) (handleCreateSpice p s st)))) q' →
  spices (imageLoaded (Some url) (handleCreateSpice p s st))
  = spices (handleCreateSpice p s st)
  ∧ draft_name (newSpice (imageLoaded (Some url) (handleCreateSpice p s st))) = ""
  ∧ ∃ first second,
      spices (handleCreateSpice p' s'
                (run (map EditDraft edits)
                   (imageLoaded (Some url) (handleCreateSpice p s st))))
      = spices st ++ [first; second]
      ∧ spice_imageDataUrl first = draft_imageDataUrl (newSpice st)
      ∧ spice_imageDataUrl second = Some url.
Proof.
  intros Hv Hv'.
  destruct (draft_edits_keep_image edits
              (imageLoaded (Some url) (handleCreateSpice p s st))) as [Hs Hi].
  destruct Hv as (Hn & Hp & Hq). destruct Hv' as (Hn' & Hp' & Hq').
  pose proof (handleCreateSpice_spices p s st q Hn Hp Hq) as Hfirst.
  rewrite (handleCreateSpice_spices p' s' _ q' Hn' Hp' Hq'), Hs.
  assert (newSpice (imageLoaded (Some url) (handleCreateSpice p s st))
          = {| draft_name := ""; draft_description := ""; draft_price := "";
               draft_unit := "100g"; draft_heat := Medium; draft_origin := "";
               draft_notes := ""; draft_imageDataUrl := Some url;
               draft_isSignature := false |}) as Hdraft.
  { rewrite (handleCreateSpice_valid p s st q) by done. reflexivity. }
  assert (spices (imageLoaded (Some url) (handleCreateSpice p s st))
          = spices (handleCreateSpice p s st)) as Hsame by reflexivity.
  split; [done |]. split; [by rewrite Hdraft |].
  rewrite Hsame, Hfirst, <- app_assoc. do 2 eexists.
  split; [reflexivity |]. split; [done |].
  cbn [spice_imageDataUrl createdSpice]. rewrite Hi, Hdraft. done.
Qed.

(** ** What a run of the component keeps *)

Lemma applyFormEdit_frame (e : formEdit) (st : AppState) :
  spices (applyFormEdit e st) = spices st
  ∧ orders (applyFormEdit e st) = orders st
  ∧ users (applyFormEdit e st) = users st
  ∧ quantities (applyFormEdit e st) = quantities st
  ∧ currentUserId (applyFormEdit e st) = currentUserId st
  ∧ adminConfig (applyFormEdit e st) = adminConfig st
  ∧ initialized (applyFormEdit e st) = initialized st.
Proof. by destruct e. Qed.

Lemma fillForm_frame (u : User) (st : AppState) :
  spices (fillForm u st) = spices st
  ∧ orders (fillForm u st) = orders st
  ∧ users (fillForm u st) = users st
  ∧ quantities (fillForm u st) = quantities st
  ∧ currentUserId (fillForm u st) = currentUserId st
  ∧ adminConfig (fillForm u st) = adminConfig st
  ∧ initialized (fillForm u st) = initialized st.
Proof. done. Qed.

Lemma profileEffect_frame (st : AppState) :
  spices (profileEffect st) = spices st
  ∧ orders (profileEffect st) = orders st
  ∧ users (profileEffect st) = users st
  ∧ quantities (profileEffect st) = quantities st
  ∧ currentUserId (profileEffect st) = currentUserId st
  ∧ adminConfig (profileEffect st) = adminConfig st
  ∧ initialized (profileEffect st) = initialized st.
Proof. unfold profileEffect. by destruct (currentUser st). Qed.

Lemma imageLoaded_frame (result : option string) (st : AppState) :
  spices (imageLoaded result st) = spices st
  ∧ orders (imageLoaded result st) = orders st
  ∧ users (imageLoaded result st) = users st
  ∧ quantities (imageLoaded result st) = quantities st
  ∧ currentUserId (imageLoaded result st) = currentUserId st
  ∧ adminConfig (imageLoaded result st) = adminConfig st
  ∧ initialized (imageLoaded result st) = initialized st.
Proof. by destruct result. Qed.

Lemma handleSaveProfile_frame now st :
  spices (handleSaveProfile now st) = spices st
  ∧ orders (handleSaveProfile now st) = orders st
  ∧ quantities (handleSaveProfile now st) = quantities st
  ∧ adminConfig (handleSaveProfile now st) = adminConfig st
  ∧ initialized (handleSaveProfile now st) = initialized st.
Proof.
  unfold handleSaveProfile. simpl.
  destruct (negb _ || negb _); [done |]. by destruct (List.find _ _).
Qed.

Lemma handleCreateSpice_frame p s st :
  spices st `prefix_of` spices (handleCreateSpice p s st)
  ∧ orders (handleCreateSpice p s st) = orders st
  ∧ users (handleCreateSpice p s st) = users st
  ∧ quantities (handleCreateSpice p s st) = quantities st
  ∧ currentUserId (handleCreateSpice p s st) = currentUserId st
  ∧ adminConfig (handleCreateSpice p s st) = adminConfig st
  ∧ initialized (handleCreateSpice p s st) = initialized st.
Proof.
  destruct (handleCreateSpice_cases p s st) as [-> | [q Hv]]; [done |].
  rewrite (handleCreateSpice_valid p s st q Hv). simpl.
  split; [by apply prefix_app_r | done].
Qed.

Lemma handlePlaceOrder_frame now iso st :
  spices (handlePlaceOrder now iso st) = spices st
  ∧ orders st `prefix_of` orders (handlePlaceOrder now iso st)
  ∧ users (handlePlaceOrder now iso st) = users st
  ∧ (quantities (handlePlaceOrder now iso st) = quantities st
     ∨ quantities (handlePlaceOrder now iso st) = ∅)
  ∧ currentUserId (handlePlaceOrder now iso st) = currentUserId st
  ∧ adminConfig (handlePlaceOrder now iso st) = adminConfig st
  ∧ initialized (handlePlaceOrder now iso st) = initialized st.
Proof.
  destruct (decide (trim (orderName st) = "")) as [Hn | Hn].
  { rewrite handlePlaceOrder_missing by auto. simpl. repeat split; auto. }
  destruct (decide (trim (orderEmail st) = "")) as [He | He].
  { rewrite handlePlaceOrder_missing by auto. simpl. repeat split; auto. }
  destruct (selectedOf (spices st) (quantities st)) as [| x l] eqn:Hsel.
  { rewrite handlePlaceOrder_empty by done. simpl. repeat split; auto. }
  rewrite handlePlaceOrder_accepted by (try done; by rewrite Hsel).
  unfold acceptedState. destruct (truthy _); simpl;
    (split; [done |]); (split; [by apply prefix_app_r |]); repeat split; auto.
Qed.

(** What one action does to the catalog, the order history, the cart and
    the initialization flag. *)
Lemma dispatch_frame (a : action) (st : AppState) :
  spices st `prefix_of` spices (dispatch a st)
  ∧ orders st `prefix_of` orders (dispatch a st)
  ∧ initialized (dispatch a st) = initialized st
  ∧ (quantities (dispatch a st) = quantities st
     ∨ quantities (dispatch a st) = ∅
     ∨ ∃ i spice value,
         spices st !! i = Some spice
         ∧ quantities (dispatch a st)
           = updateQuantity (spice_id spice) value (quantities st)).
Proof.
  destruct a as [i | i | i text | e | m | now iso | now | i | | e | e | r | p s];
    simpl.
  - unfold onProduct. destruct (spices st !! i) as [spice |] eqn:Hi; [| by auto].
    repeat split; try done. right. right. by eexists i, spice, _.
  - unfold onProduct. destruct (spices st !! i) as [spice |] eqn:Hi; [| by auto].
    repeat split; try done. right. right. by eexists i, spice, _.
  - unfold onProduct. destruct (spices st !! i) as [spice |] eqn:Hi; [| by auto].
    repeat split; try done. right. right. by eexists i, spice, _.
  - destruct (applyFormEdit_frame e st) as (-> & -> & _ & -> & _ & _ & ->). auto.
  - auto.
  - destruct (handlePlaceOrder_frame now iso st) as (-> & Ho & _ & Hq & _ & _ & ->).
    repeat split; try done. destruct Hq; auto.
  - destruct (handleSaveProfile_frame now st) as (-> & -> & -> & _ & ->). auto.
  - destruct (users st !! i) as [u |]; [| by auto].
    unfold handleUseProfile.
    destruct (fillForm_frame u (setCurrentUserId (Some (user_id u)) st))
      as (-> & -> & _ & -> & _ & _ & ->). auto.
  - destruct (profileEffect_frame st) as (-> & -> & _ & -> & _ & _ & ->). auto.
  - auto.
  - auto.
  - destruct (imageLoaded_frame r st) as (-> & -> & _ & -> & _ & _ & ->). auto.
  - destruct (handleCreateSpice_frame p s st) as (Hs & -> & _ & -> & _ & _ & ->).
    auto.
Qed.

Lemma cartResolves_prefix catalog catalog' (q : gmap string Z) :
  catalog `prefix_of` catalog' → cartResolves catalog q → cartResolves catalog' q.
Proof.
  intros [rest ->] Hres id n Hl. specialize (Hres id n Hl). simpl in *.
  rewrite map_app. apply elem_of_app. by left.
Qed.

Lemma dispatch_cart (a : action) (st : AppState) :
  cartPositive (quantities st) ∧ cartResolves (spices st) (quantities st) →
  cartPositive (quantities (dispatch a st))
  ∧ cartResolves (spices (dispatch a st)) (quantities (dispatch a st)).
Proof.
  intros [Hpos Hres].
  destruct (dispatch_frame a st) as (Hcat & _ & _ & [-> | [-> | Hupd]]).
  - split; [done |]. by apply (cartResolves_prefix (spices st)).
  - split; [apply map_Forall_empty | apply map_Forall_empty].
  - destruct Hupd as (i & spice & value & Hi & ->).
    split; [by apply updateQuantity_positive |].
    apply (cartResolves_prefix (spices st)); [done |].
    unfold cartResolves, updateQuantity.
    destruct (safeQuantity value <=? 0).
    + by apply map_Forall_delete.
    + apply map_Forall_insert_2; [| done].
      apply list_elem_of_fmap. exists spice. split; [done |].
      by eapply list_elem_of_lookup_2.
Qed.

(** X19. Whatever happens to the component, the cart keeps its invariants:
    every stored quantity is at least 1 and every entry names a product of
    the catalog.  (The controls change the quantity of listed products
    only, and the catalog is never shortened.) *)
Theorem cart_invariants_kept (actions : list action) (st : AppState) :
  cartPositive (quantities st) ∧ cartResolves (spices st) (quantities st) →
  cartPositive (quantities (run actions st))
  ∧ cartResolves (spices (run actions st)) (quantities (run actions st)).
Proof.
  revert st. induction actions as [| a actions IH]; intros st Hst; simpl; [done |].
  apply IH. by apply dispatch_cart.
Qed.

(** X20. No action removes, changes or reorders a product of the catalog or
    an order of the history: what was there is a prefix of what is there
    afterwards.  In particular a catalog that is not empty stays so. *)
Theorem catalog_and_history_append_only (actions : list action) (st : AppState) :
  spices st `prefix_of` spices (run actions st)
  ∧ orders st `prefix_of` orders (run actions st)
  ∧ initialized (run actions st) = initialized st
  ∧ (spices st ≠ [] → spices (run actions st) ≠ []).
Proof.
  assert (spices st `prefix_of` spices (run actions st)
          ∧ orders st `prefix_of` orders (run actions st)
          ∧ initialized (run actions st) = initialized st) as (Hs & Ho & Hi).
  { revert st. induction actions as [| a actions IH]; intros st; simpl; [done |].
    destruct (dispatch_frame a st) as (Hs & Ho & Hi & _).
    destruct (IH (dispatch a st)) as (Hs' & Ho' & Hi').
    split; [by etrans |]. split; [by etrans | congruence]. }
  repeat split; try done.
  destruct Hs as [rest ->]. intros Hne Happ. apply app_eq_nil in Happ as [? _]. done.
Qed.

Lemma onProduct_frame i (f : Spice → AppState → AppState) st :
  (∀ spice, users (f spice st) = users st
            ∧ currentUserId (f spice st) = currentUserId st
            ∧ adminConfig (f spice st) = adminConfig st) →
  users (onProduct i f st) = users st
  ∧ currentUserId (onProduct i f st) = currentUserId st
  ∧ adminConfig (onProduct i f st) = adminConfig st.
Proof. intros Hf. unfold onProduct. destruct (spices st !! i); [apply Hf | done]. Qed.

Lemma handleSaveProfile_pointer now st :
  (users (handleSaveProfile now st) = users st
   ∧ currentUserId (handleSaveProfile now st) = currentUserId st)
  ∨ ∃ id, currentUserId (handleSaveProfile now st) = Some id
          ∧ id ∈ map user_id (users (handleSaveProfile now st)).
Proof.
  destruct (decide (trim (orderName st) = "")) as [Hn | Hn].
  { left. rewrite handleSaveProfile_blank by auto. done. }
  destruct (decide (trim (orderEmail st) = "")) as [He | He].
  { left. rewrite handleSaveProfile_blank by auto. done. }
  right. destruct (handleSaveProfile_users now st Hn He) as [-> ->].
  eexists. split; [done |].
  destruct (List.find _ _) as [e |] eqn:Hfind.
  - rewrite replaceById_ids by done.
    apply find_some in Hfind as [Hin _]. apply list_elem_of_In in Hin.
    apply list_elem_of_fmap. by exists e.
  - rewrite map_app. apply elem_of_app. right. simpl. apply list_elem_of_here.
Qed.

Lemma handleSaveProfile_normalized now st :
  profilesNormalized (users st) → profilesNormalized (users (handleSaveProfile now st)).
Proof.
  intros Hnorm.
  destruct (decide (trim (orderName st) = "")) as [Hn | Hn].
  { rewrite handleSaveProfile_blank by auto. done. }
  destruct (decide (trim (orderEmail st) = "")) as [He | He].
  { rewrite handleSaveProfile_blank by auto. done. }
  destruct (handleSaveProfile_users now st Hn He) as [-> _].
  unfold profilesNormalized in *.
  destruct (List.find _ _) as [e |].
  - unfold replaceById. apply Forall_fmap. eapply Forall_impl; [exact Hnorm |].
    intros u Hu. simpl. destruct (String.eqb _ _); [| done].
    apply profileFromForm_normalized.
  - apply Forall_app. split; [done |]. apply Forall_singleton.
    apply profileFromForm_normalized.
Qed.

Lemma dispatch_profiles (a : action) (st : AppState) :
  pointerResolves st ∧ profilesNormalized (users st) →
  pointerResolves (dispatch a st) ∧ profilesNormalized (users (dispatch a st)).
Proof.
  intros [Hptr Hnorm]. unfold pointerResolves in *.
  assert (users (dispatch a st) = users st
          ∧ currentUserId (dispatch a st) = currentUserId st
          → (∀ id, currentUserId (dispatch a st) = Some id
                   → id ∈ map user_id (users (dispatch a st)))
            ∧ profilesNormalized (users (dispatch a st))) as Hsame.
  { intros [-> ->]. done. }
  destruct a as [i | i | i text | e | m | now iso | now | i | | e | e | r | p s];
    simpl in *.
  - apply Hsame. by destruct (onProduct_frame i clickMinus st) as (? & ? & _).
  - apply Hsame. by destruct (onProduct_frame i clickPlus st) as (? & ? & _).
  - apply Hsame.
    by destruct (onProduct_frame i (λ spice, typeQuantity spice text) st) as (? & ? & _).
  - apply Hsame. by destruct (applyFormEdit_frame e st) as (_ & _ & ? & _ & ? & _).
  - by apply Hsame.
  - apply Hsame.
    by destruct (handlePlaceOrder_frame now iso st) as (_ & _ & ? & _ & ? & _).
  - split; [| by apply handleSaveProfile_normalized].
    destruct (handleSaveProfile_pointer now st) as [[Hu Hp] | (id & Hp & Hin)].
    + rewrite Hu, Hp. exact Hptr.
    + intros id' Hid'. rewrite Hp in Hid'. by injection Hid' as <-.
  - destruct (users st !! i) as [u |] eqn:Hi; [| by apply Hsame].
    split; [| done]. simpl. intros id [= <-].
    apply list_elem_of_fmap. exists u. split; [done |].
    by eapply list_elem_of_lookup_2.
  - apply Hsame. by destruct (profileEffect_frame st) as (_ & _ & ? & _ & ? & _).
  - by apply Hsame.
  - by apply Hsame.
  - apply Hsame. by destruct (imageLoaded_frame r st) as (_ & _ & ? & _ & ? & _).
  - apply Hsame. by destruct (handleCreateSpice_frame p s st) as (_ & _ & ? & _ & ? & _).
Qed.

(** X21. Whatever happens to the component, the active profile, if there is
    one, is the identifier of a profile of the store, and every profile of
    the store is as the save stores it: texts trimmed, optional texts
    absent rather than empty. *)
Theorem profile_invariants_kept (actions : list action) (st : AppState) :
  pointerResolves st ∧ profilesNormalized (users st) →
  pointerResolves (run actions st) ∧ profilesNormalized (users (run actions st)).
Proof.
  revert st. induction actions as [| a actions IH]; intros st Hst; simpl; [done |].
  apply IH. by apply dispatch_profiles.
Qed.





(** ** Loading *)









Lemma loadAdmin_any storage st :
  (storage !! STORAGE_KEYS.admin = Some Malformed → loadAdmin storage st = Throw st)
  ∧ (passedOver isObjectLike (storage !! STORAGE_KEYS.admin) →
     loadAdmin storage st = Normal st)
  ∧ match loadAdmin storage st with
    | Normal s | Throw s =>
        spices s = spices st ∧ users s = users st ∧ orders s = orders st
    | Untyped => True
    end.
Proof.
  unfold loadAdmin. split; [by intros -> |]. split.
  - intros [-> | [-> | (j & -> & Hj)]]; try done. by rewrite Hj.
  - destruct (storage !! STORAGE_KEYS.admin) as [[| | j] |]; try done.
    destruct (isObjectLike j); [| done].
    by destruct (adminOfProps _).
Qed.

Lemma loadSpices_any storage st :
  (storage !! STORAGE_KEYS.spices = Some Malformed → loadSpices storage st = Throw st)
  ∧ (passedOver isNonEmptyArray (storage !! STORAGE_KEYS.spices) →
     loadSpices storage st = Normal st)
  ∧ match loadSpices storage st with
    | Normal s | Throw s => users s = users st ∧ orders s = orders st
    | Untyped => True
    end.
Proof.
  unfold loadSpices. split; [by intros -> |]. split.
  - intros [-> | [-> | (j & -> & Hj)]]; try done.
    by destruct j as [| | | | [| x xs] |].
  - destruct (storage !! STORAGE_KEYS.spices) as [[| | j] |]; try done.
    destruct j as [| | | | [| x xs] |]; try done.
    by destruct (mapM spiceOfJSON _).
Qed.

Lemma loadUsers_any storage st :
  (storage !! STORAGE_KEYS.users = Some Malformed → loadUsers storage st = Throw st)
  ∧ (passedOver isArray (storage !! STORAGE_KEYS.users) →
     loadUsers storage st = Normal st)
  ∧ match loadUsers storage st with
    | Normal s | Throw s => orders s = orders st
    | Untyped => True
    end.
Proof.
  unfold loadUsers. split; [by intros -> |]. split.
  - intros [-> | [-> | (j & -> & Hj)]]; try done. by destruct j.
  - destruct (storage !! STORAGE_KEYS.users) as [[| | j] |]; try done.
    destruct j; try done. by destruct (mapM userOfJSON _).
Qed.

Lemma loadOrders_any storage st :
  (storage !! STORAGE_KEYS.orders = Some Malformed → loadOrders storage st = Throw st)
  ∧ (passedOver isArray (storage !! STORAGE_KEYS.orders) →
     loadOrders storage st = Normal st).
Proof.
  unfold loadOrders. split; [by intros -> |].
  intros [-> | [-> | (j & -> & Hj)]]; try done. by destruct j.
Qed.


(** X24. A slot that is absent, holds the empty text, or holds a document of
    another kind than its store (for the admin configuration: not an
    object; for the catalog: not an array with an element; for the
    profiles and the order history: not an array) is passed over without
    an error: when this is so for all four slots, the load changes nothing
    but the initialization flag. *)
Theorem load_passes_over_other_documents (storage : gmap string document)
    (st : AppState) :
  passedOver isObjectLike (storage !! STORAGE_KEYS.admin) →
  passedOver isNonEmptyArray (storage !! STORAGE_KEYS.spices) →
  passedOver isArray (storage !! STORAGE_KEYS.users) →
  passedOver isArray (storage !! STORAGE_KEYS.orders) →
  loadEffect storage st = Some (setInitialized true st).
Proof.
  intros Ha Hs Hu Ho. unfold loadEffect.
  rewrite (proj1 (proj2 (loadAdmin_any storage st)) Ha). simpl.
  rewrite (proj1 (proj2 (loadSpices_any storage st)) Hs). simpl.
  rewrite (proj1 (proj2 (loadUsers_any storage st)) Hu). simpl.
  by rewrite (proj2 (loadOrders_any storage st) Ho).
Qed.

End Engine.

(** * The properties on the example states *)


Lemma cartState_quantities :
  quantities cartState = <["p2" := 1]> (<["p1" := 2]> ∅).
Proof. reflexivity. Defined.

(** The example of C1: the cart [{p1: 2, p2: 1}] at prices 100 and 50. *)
Example cart_example_order :
  ∃ order,
    orders (handlePlaceOrder plainFormat plainEncode 1700000000000
              "2023-11-14T22:13:20.000Z" cartState) = [order]
    ∧ order_total order = 250
    ∧ map item_subtotal (order_items order) = [200; 50]
    ∧ quantities (handlePlaceOrder plainFormat plainEncode 1700000000000
                    "2023-11-14T22:13:20.000Z" cartState) = ∅.
Proof. eexists. vm_compute. done. Qed.



Example cart_example_estimate : estimatedTotal cartState = 250.
Proof. reflexivity. Qed.


Lemma upsert_idempotent_witness :
  profilesUnique (users profileState)
  ∧ toLowerCase (trim "a@x.com") = toLowerCase (trim "A@x.com")
  ∧ ∃ id,
      profilesFor "a@x.com"
        (users (handleSaveProfile 6 (secondForm (handleSaveProfile 5 profileState))))
      = [profileFromForm id (secondForm (handleSaveProfile 5 profileState))].
Proof.
  assert (profilesUnique (users profileState)) as Hwf.
  { split; apply NoDup_nil_2. }
  split; [exact Hwf |]. split; [reflexivity |].
  destruct (upsert_idempotent 5 6 profileState
              (secondForm (handleSaveProfile 5 profileState)))
    as (id & _ & Hone & _).
  - exact Hwf.
  - vm_compute; discriminate.
  - vm_compute; discriminate.
  - vm_compute; discriminate.
  - vm_compute; discriminate.
  - reflexivity.
  - reflexivity.
  - intros _ Hin. simpl in Hin. by apply elem_of_nil in Hin.
  - exists id. exact Hone.
Defined.

(** The claim C5 fails when the identifier derived from the clock is in use:
    the store holds one profile per email under unique identifiers, and
    after the two upserts it holds two profiles for the email. *)
Lemma upsert_idempotent_counterexample :
  profilesUnique (users clashProfileState)
  ∧ List.find (profileMatches "A@x.com") (users clashProfileState) = None
  ∧ length (profilesFor "a@x.com"
              (users (handleSaveProfile 6
                        (secondForm (handleSaveProfile 5 clashProfileState)))))
    = 2%nat.
Proof.
  split; [| split; reflexivity].
  split; apply NoDup_singleton.
Qed.






Lemma receipt_address_line_witness :
  orderError (handlePlaceOrder plainFormat plainEncode 1700000000000
                "2023-11-14T22:13:20.000Z" addressState) = None
  ∧ ∃ order,
      orders (handlePlaceOrder plainFormat plainEncode 1700000000000
                "2023-11-14T22:13:20.000Z" addressState)
      = orders addressState ++ [order]
      ∧ List.filter isAddressLine (bodyLinesOf plainFormat order)
        = ["Address: 12 MG Road, Pune 411001"].
Proof.
  split; [reflexivity |].
  destruct (receipt_address_line plainFormat plainEncode 1700000000000
              "2023-11-14T22:13:20.000Z" addressState eq_refl)
    as (order & Horders & Hline & _).
  exists order. split; [exact Horders |]. rewrite Hline. reflexivity.
Defined.

(** The claim C8 fails when city and postal code are both given: the code
    separates them by a space, the claim by a comma and a space. *)
Lemma receipt_address_line_counterexample :
  ∃ order,
    orders (handlePlaceOrder plainFormat plainEncode 1700000000000
              "2023-11-14T22:13:20.000Z" addressState) = [order]
    ∧ List.filter isAddressLine (bodyLinesOf plainFormat order)
      = ["Address: 12 MG Road, Pune 411001"]
    ∧ specAddressLine order = ["Address: 12 MG Road, Pune, 411001"].
Proof. eexists. vm_compute. done. Qed.

Lemma handoff_decision_witness :
  orderError (handlePlaceOrder plainFormat plainEncode 1700000000000
                "2023-11-14T22:13:20.000Z" mailAdminState) = None
  ∧ trim (adminEmail (adminConfig mailAdminState)) ≠ ""
  ∧ orderStatus (handlePlaceOrder plainFormat plainEncode 1700000000000
                   "2023-11-14T22:13:20.000Z" mailAdminState)
    = Some draftedMessage.
Proof.
  assert (trim (adminEmail (adminConfig mailAdminState)) ≠ "") as Hr
    by (vm_compute; discriminate).
  split; [reflexivity |]. split; [exact Hr |].
  destruct (handoff_decision plainFormat plainEncode 1700000000000
              "2023-11-14T22:13:20.000Z" mailAdminState eq_refl)
    as (order & _ & _ & Hmail & _).
  exact (proj2 (Hmail Hr)).
Defined.

(** The claim C9 fails on an admin address that is not empty but blank: the
    order is accepted, no hand-off is made and the status reports a locally
    stored order. *)
Lemma handoff_decision_counterexample :
  adminEmail (adminConfig blankAdminState) ≠ ""
  ∧ orderError (handlePlaceOrder plainFormat plainEncode 1700000000000
                  "2023-11-14T22:13:20.000Z" blankAdminState) = None
  ∧ locationHref (handlePlaceOrder plainFormat plainEncode 1700000000000
                    "2023-11-14T22:13:20.000Z" blankAdminState) = None
  ∧ orderStatus (handlePlaceOrder plainFormat plainEncode 1700000000000
                   "2023-11-14T22:13:20.000Z" blankAdminState)
    = Some storedLocallyMessage.
Proof.
  split; [vm_compute; discriminate |]. repeat split; reflexivity.
Qed.

Lemma accepted_order_frame_witness :
  orderError (handlePlaceOrder plainFormat plainEncode 1700000000000
                "2023-11-14T22:13:20.000Z" cartState) = None
  ∧ quantities (handlePlaceOrder plainFormat plainEncode 1700000000000
                  "2023-11-14T22:13:20.000Z" cartState) = ∅
  ∧ orderName (handlePlaceOrder plainFormat plainEncode 1700000000000
                 "2023-11-14T22:13:20.000Z" cartState) = orderName cartState.
Proof.
  split; [reflexivity |].
  destruct (accepted_order_frame plainFormat plainEncode 1700000000000
              "2023-11-14T22:13:20.000Z" cartState eq_refl)
    as (Hcart & _ & Hname & _).
  split; [exact Hcart | exact Hname].
Defined.

(** * The further properties on the example states *)





Lemma no_selection_no_order_witness :
  hasSelection profileState = false
  ∧ orders (handlePlaceOrder plainFormat plainEncode 1700000000000
              "2023-11-14T22:13:20.000Z" profileState)
    = orders profileState.
Proof.
  split; [reflexivity |].
  exact (proj1 (proj2 (no_selection_no_order plainFormat plainEncode 1700000000000
                         "2023-11-14T22:13:20.000Z" profileState eq_refl))).
Defined.

Lemma accepted_order_contact_witness :
  orderError (handlePlaceOrder plainFormat plainEncode 1700000000000
                "2023-11-14T22:13:20.000Z" cartState) = None
  ∧ ∃ order,
      orders (handlePlaceOrder plainFormat plainEncode 1700000000000
                "2023-11-14T22:13:20.000Z" cartState)
      = orders cartState ++ [order]
      ∧ order_id order = "HL-1700000000000"
      ∧ customerPhone order = None.
Proof.
  split; [reflexivity |].
  destruct (accepted_order_contact plainFormat plainEncode 1700000000000
              "2023-11-14T22:13:20.000Z" cartState eq_refl)
    as (order & Horders & Hid & _ & _ & _ & _ & _ & Hphone & _).
  exists order. split; [exact Horders |]. split; [exact Hid |].
  apply (proj2 Hphone). reflexivity.
Defined.

Lemma order_items_in_catalog_order_witness :
  orderError (handlePlaceOrder plainFormat plainEncode 1700000000000
                "2023-11-14T22:13:20.000Z" cartState) = None
  ∧ ∃ order,
      orders (handlePlaceOrder plainFormat plainEncode 1700000000000
                "2023-11-14T22:13:20.000Z" cartState)
      = orders cartState ++ [order]
      ∧ sublist (map item_spiceId (order_items order)) ["p1"; "p2"].
Proof.
  split; [reflexivity |].
  destruct (order_items_in_catalog_order plainFormat plainEncode 1700000000000
              "2023-11-14T22:13:20.000Z" cartState eq_refl)
    as (order & Horders & Hsub & _).
  exists order. split; [exact Horders | exact Hsub].
Defined.

Lemma profileState_no_match :
  List.find (profileMatches (orderEmail profileState)) (users profileState) = None.
Proof. reflexivity. Defined.

Lemma saved_profile_is_active_witness :
  trim (orderName profileState) ≠ ""
  ∧ trim (orderEmail profileState) ≠ ""
  ∧ currentUser (handleSaveProfile 5 profileState)
    = Some (profileFromForm "user-5" profileState).
Proof.
  assert (trim (orderName profileState) ≠ "") as Hn by (vm_compute; discriminate).
  assert (trim (orderEmail profileState) ≠ "") as He by (vm_compute; discriminate).
  split; [exact Hn |]. split; [exact He |].
  apply (saved_profile_is_active 5 profileState Hn He).
  - intros e He'. rewrite profileState_no_match in He'. discriminate.
  - intros _ Hin. simpl in Hin. by apply elem_of_nil in Hin.
Defined.


Lemma storedProfileState_unique : profilesUnique (users storedProfileState).
Proof. split; apply NoDup_singleton. Defined.

Lemma ashaProfile_stored : ashaProfile ∈ users storedProfileState.
Proof. apply list_elem_of_here. Defined.

Lemma use_then_save_keeps_store_witness :
  profilesUnique (users storedProfileState)
  ∧ normalizedProfile ashaProfile
  ∧ users (handleSaveProfile 7 (handleUseProfile ashaProfile storedProfileState))
    = users storedProfileState.
Proof.
  assert (normalizedProfile ashaProfile) as Hnorm by reflexivity.
  split; [exact storedProfileState_unique |]. split; [exact Hnorm |].
  refine (proj1 (use_then_save_keeps_store 7 ashaProfile storedProfileState
                   storedProfileState_unique ashaProfile_stored Hnorm _ _));
    discriminate.
Defined.


Lemma chaiState_valid : validDraft plainNumber (newSpice chaiState) 120.
Proof.
  split; [vm_compute; discriminate |]. split; reflexivity.
Defined.

Lemma created_price_rounded_witness :
  validDraft plainNumber (newSpice chaiState) 120
  ∧ ∃ created,
      spices (handleCreateSpice plainNumber 1000 1000 chaiState)
      = spices chaiState ++ [created]
      ∧ 1 ≤ spice_price created.
Proof.
  split; [exact chaiState_valid |].
  destruct (created_price_rounded plainNumber 1000 1000 chaiState 120 chaiState_valid)
    as (created & Hcat & _ & _ & _ & _ & Hbig).
  exists created. split; [exact Hcat |]. apply Hbig. discriminate.
Defined.

Lemma late_image_goes_to_next_draft_witness :
  validDraft plainNumber (newSpice chaiState) 120
  ∧ ∃ first second,
      spices (handleCreateSpice plainNumber 2000 2000
                (run plainFormat plainEncode plainNumber
                   (map EditDraft [DraftName "Chai Mix"; DraftPrice "120"])
                   (imageLoaded (Some "data:image/png;base64,AAAA")
                      (handleCreateSpice plainNumber 1000 1000 chaiState))))
      = spices chaiState ++ [first; second]
      ∧ spice_imageDataUrl first = None
      ∧ spice_imageDataUrl second = Some "data:image/png;base64,AAAA".
Proof.
  split; [exact chaiState_valid |].
  destruct (late_image_goes_to_next_draft plainFormat plainEncode plainNumber
              1000 1000 2000 2000 chaiState 120 120
              "data:image/png;base64,AAAA"
              [DraftName "Chai Mix"; DraftPrice "120"] chaiState_valid)
    as (_ & _ & first & second & Hcat & Hfirst & Hsecond).
  - split; [vm_compute; discriminate |]. split; reflexivity.
  - exists first, second. split; [exact Hcat |]. split; [exact Hfirst | exact Hsecond].
Defined.

Lemma initialState_cart :
  cartPositive (quantities initialState)
  ∧ cartResolves (spices initialState) (quantities initialState).
Proof. split; apply map_Forall_empty. Defined.

Lemma cart_invariants_kept_witness :
  (cartPositive (quantities initialState)
   ∧ cartResolves (spices initialState) (quantities initialState))
  ∧ cartPositive
      (quantities (run plainFormat plainEncode plainNumber exampleRun initialState)).
Proof.
  split; [exact initialState_cart |].
  exact (proj1 (cart_invariants_kept plainFormat plainEncode plainNumber exampleRun
                  initialState initialState_cart)).
Defined.

Lemma initialState_profiles :
  pointerResolves initialState ∧ profilesNormalized (users initialState).
Proof.
  split; [intros id Hid; discriminate | apply Forall_nil_2].
Defined.

Lemma profile_invariants_kept_witness :
  (pointerResolves initialState ∧ profilesNormalized (users initialState))
  ∧ pointerResolves (run plainFormat plainEncode plainNumber exampleRun initialState).
Proof.
  split; [exact initialState_profiles |].
  exact (proj1 (profile_invariants_kept plainFormat plainEncode plainNumber
                  exampleRun initialState initialState_profiles)).
Defined.



Lemma load_passes_over_other_documents_witness :
  passedOver isArray ((∅ : gmap string document) !! STORAGE_KEYS.users)
  ∧ loadEffect ∅ cartState = Some (setInitialized true cartState).
Proof.
  split; [by left |].
  apply (load_passes_over_other_documents ∅ cartState); by left.
Defined.
